(** * Export engine of the AI website builder

    A shallow embedding of the server's export module (the four format
    adapters [exportToFramer], [exportToFigma], [exportToWebflow],
    [exportToHTML] and the helpers [hexToRgb] and [escapeHtml]) together
    with the properties its specification states about them.

    Modelling conventions.
    - A JavaScript string is a [string]: a sequence of 8-bit characters,
      that is, ASCII text.  [toLowerCase] and the whitespace class of
      regular expressions are given on that range.
    - A JavaScript [number] holding a geometry value is a binary64
      floating-point number, a [float]: [*] is the multiplication of
      IEEE 754, rounded to nearest, and template interpolation prints what
      [Number::toString] prescribes.  An array index and an array length
      are integers, kept as [nat] and [Z].  A colour channel that may be
      [NaN] is an [option], and the quotient [n / 255] is kept as an exact
      rational.
    - An object literal of fixed shape is a [Record]; the open
      [Record<string, any>] bag is a [gmap string json]; a token group,
      whose enumeration order is observable through [Object.entries], is
      the list of its entries in that order.
    - [nanoid()], [new Date().toISOString()] and [storagePut] are effects:
      they are threaded through a state monad over a [World] that fixes
      what every call returns.  The module [./storage] is not among the
      sources; [storagePut] follows the contract the specification gives
      for it. *)

From Stdlib Require Import PrimFloat.
From Stdlib Require Import String Ascii ZArith List QArith DecimalString Lia Bool.
From Stdlib Require DecimalZ FloatOps SpecFloat.
From stdpp Require Import gmap strings list.

Open Scope string_scope.

(** ** JavaScript built-ins used by the engine *)

Module JS.

(** The double quote character, and the one-character string holding it. *)
Definition dquote : ascii := "034"%char.
Definition DQ : string := String dquote EmptyString.
Definition NL : string := String "010"%char EmptyString.

Definition code (c : ascii) : N := N_of_ascii c.

Definition in_range (lo hi c : ascii) : bool :=
  ((code lo <=? code c) && (code c <=? code hi))%N.

(** [\d] *)
Definition is_digit (c : ascii) : bool := in_range "0" "9" c.

(** [\s], on the ASCII range: tab, line feed, vertical tab, form feed,
    carriage return and space. *)
Definition is_space (c : ascii) : bool :=
  in_range "009" "013" c || Ascii.eqb c " ".

(** [String.prototype.toLowerCase], on the ASCII range: the letters [A] to
    [Z] are the characters that change. *)
Definition lower_char (c : ascii) : ascii :=
  if in_range "A" "Z" c then ascii_of_N (code c + 32) else c.

Fixpoint toLowerCase (s : string) : string :=
  match s with
  | EmptyString => EmptyString
  | String c r => String (lower_char c) (toLowerCase r)
  end.

(** [s.replace(/\s+/g, rep)]: every maximal run of whitespace becomes one
    copy of [rep].  [in_run] tells that the previous character was
    whitespace already. *)
Fixpoint replace_space_runs (rep : string) (in_run : bool) (s : string) : string :=
  match s with
  | EmptyString => EmptyString
  | String c r =>
      if is_space c
      then (if in_run then replace_space_runs rep true r
            else rep ++ replace_space_runs rep true r)
      else String c (replace_space_runs rep false r)
  end.

(** [s.replace(/[...]/g, fn)] for a character class: one left-to-right
    scan; a character of the class is replaced by what [fn] returns for
    it, any other character is copied. *)
Fixpoint replace_class (cls : ascii -> bool) (fn : string -> string) (s : string) : string :=
  match s with
  | EmptyString => EmptyString
  | String c r =>
      (if cls c then fn (String c EmptyString) else String c EmptyString)
        ++ replace_class cls fn r
  end.

(** [obj[key]] on an object literal given by its entries; [None] is
    [undefined]. *)
Fixpoint get (entries : list (string * string)) (key : string) : option string :=
  match entries with
  | [] => None
  | (k, v) :: rest => if String.eqb k key then Some v else get rest key
  end.

(** What a replacer's result becomes once converted to a string. *)
Definition to_string (v : option string) : string :=
  match v with Some s => s | None => "undefined" end.

(** [Array.prototype.join] on an array of strings. *)
Definition join (sep : string) (l : list string) : string := String.concat sep l.

(** The decimal numeral of an integer. *)
Definition decimal (n : Z) : string :=
  NilEmpty.string_of_int (Z.to_int n).

(** Template interpolation of an array index.  An index is an integer
    below 2^32, which [Number::toString] prints as its decimal numeral. *)
Definition Integer_toString (n : Z) : string := decimal n.

(** A [number]. *)
Definition number : Set := PrimFloat.float.

(** [n] times the digit 0. *)
Fixpoint zeros (n : nat) : string :=
  match n with O => EmptyString | S k => String "0" (zeros k) end.

(** The first [n] characters of a string, and the rest. *)
Fixpoint take (n : nat) (s : string) : string :=
  match n, s with
  | S k, String c r => String c (take k r)
  | _, _ => EmptyString
  end.

Fixpoint drop (n : nat) (s : string) : string :=
  match n, s with
  | S k, String c r => drop k r
  | _, _ => s
  end.

(** The rational [a * 2^p * 10^q], as a fraction of integers, and the
    integers next to it. *)
Definition scaled_num (a p q : Z) : Z :=
  (a * 2 ^ Z.max p 0 * 10 ^ Z.max q 0)%Z.

Definition scaled_den (p q : Z) : Z :=
  (2 ^ Z.max (- p) 0 * 10 ^ Z.max (- q) 0)%Z.

Definition floor_scaled (a p q : Z) : Z :=
  (scaled_num a p q / scaled_den p q)%Z.

Definition ceil_scaled (a p q : Z) : Z :=
  (- ((- scaled_num a p q) / scaled_den p q))%Z.

(** The integer nearest to [a * 2^p * 10^q]; of two equally near, the
    even one. *)
Definition nearest_scaled (a p q : Z) : Z :=
  let below := floor_scaled a p q in
  let twice := floor_scaled (2 * a) p q in
  let halfway :=
    (twice =? 2 * below + 1)%Z && (ceil_scaled (2 * a) p q =? twice)%Z in
  if halfway then (if Z.even below then below else below + 1)%Z
  else if (twice <? 2 * below + 1)%Z then below else (below + 1)%Z.

(** [10^j <= a * 2^p] *)
Definition pow10_le (j a p : Z) : bool := (1 <=? floor_scaled a p (- j))%Z.

(** The [j] with [10^j <= a * 2^p < 10^(j+1)], searched from an estimate. *)
Fixpoint magnitude (fuel : nat) (j a p : Z) : Z :=
  match fuel with
  | O => j
  | S fuel' =>
      if negb (pow10_le j a p) then magnitude fuel' (j - 1)%Z a p
      else if pow10_le (j + 1) a p then magnitude fuel' (j + 1)%Z a p
      else j
  end.

(** Step 5 of [Number::toString] for the double [m * 2^e], whose decimal
    magnitude is [10^(N-1) <= m * 2^e < 10^N]: the least number [k] of
    digits, counted up from the given [k], for which a decimal
    [s * 10^(n-k)] of [k] digits converts to the double, that is, lies
    between the midpoints to the neighbouring doubles (the midpoints
    themselves convert to it when [m] is even); among such decimals, the
    nearest.  All quantities are counted in units of [2^(e-2)]: the double
    is [4 * m], the upper midpoint [4 * m + 2], and the lower midpoint
    [4 * m - 2], or [4 * m - 1] where the doubles below are twice as
    dense ([boundary]).  Of two decimals equally near, the one with the
    even [s] is taken.  The result is [(k, s, n)]; the decimal [10^N] is
    given as the digit 1 with [n = N + 1]. *)
Fixpoint shortest (fuel : nat) (k N m e : Z) (boundary : bool) : Z * Z * Z :=
  let t := (N - k)%Z in
  let closed := Z.even m in
  let lo := if boundary then (4 * m - 1)%Z else (4 * m - 2)%Z in
  let hi := (4 * m + 2)%Z in
  let smin := if closed then ceil_scaled lo (e - 2) (- t)
              else (floor_scaled lo (e - 2) (- t) + 1)%Z in
  let smax := if closed then floor_scaled hi (e - 2) (- t)
              else (ceil_scaled hi (e - 2) (- t) - 1)%Z in
  let smin := Z.max smin (10 ^ (k - 1)) in
  let smax := Z.min smax (10 ^ k) in
  let nearest := nearest_scaled (4 * m) (e - 2) (- t) in
  match fuel with
  | O => (k, nearest, N)
  | S fuel' =>
      if (smin <=? smax)%Z then
        let s := Z.max smin (Z.min smax nearest) in
        if (s =? 10 ^ k)%Z then (1, 1, N + 1)%Z else (k, s, N)
      else shortest fuel' (k + 1)%Z N m e boundary
  end.

(** Steps 6 to 10 of [Number::toString]: the digits of [s] laid out as a
    decimal numeral, or in exponent form from [10^21] on and below
    [10^-6]. *)
Definition layout (k s n : Z) : string :=
  let digits := decimal s in
  if ((k <=? n) && (n <=? 21))%Z then digits ++ zeros (Z.to_nat (n - k))
  else if ((0 <? n) && (n <=? 21))%Z then
    take (Z.to_nat n) digits ++ "." ++ drop (Z.to_nat n) digits
  else if ((-6 <? n) && (n <=? 0))%Z then
    "0." ++ zeros (Z.to_nat (- n)) ++ digits
  else
    let exponent :=
      (if (n - 1 <? 0)%Z then "-" else "+") ++ decimal (Z.abs (n - 1)) in
    if (k =? 1)%Z then digits ++ "e" ++ exponent
    else take 1 digits ++ "." ++ drop 1 digits ++ "e" ++ exponent.

(** The numeral of the positive double [m * 2^e], where [m] has at most
    53 bits.  The estimate of the magnitude, from the number of bits and
    [log10 2], is off by one at most, and 17 digits determine a double. *)
Definition print_finite (m e : Z) : string :=
  let estimate := (((Z.log2 m + e) * 30103) / 100000)%Z in
  let N := (magnitude 8 estimate m e + 1)%Z in
  let boundary := ((m =? 2 ^ 52) && (-1074 <? e))%Z in
  let '(k, s, n) := shortest 17 1 N m e boundary in
  layout k s n.

(** Template interpolation of a number: [Number::toString] in radix 10. *)
Definition Number_toString (x : number) : string :=
  match FloatOps.Prim2SF x with
  | SpecFloat.S754_nan => "NaN"
  | SpecFloat.S754_zero _ => "0"
  | SpecFloat.S754_infinity negative =>
      (if negative then "-" else EmptyString) ++ "Infinity"
  | SpecFloat.S754_finite negative m e =>
      (if negative then "-" else EmptyString) ++ print_finite (Z.pos m) e
  end.

(** Value of a hexadecimal digit. *)
Definition hex_value (c : ascii) : option Z :=
  if is_digit c then Some (Z.of_N (code c) - 48)%Z
  else if in_range "a" "f" c then Some (Z.of_N (code c) - 87)%Z
  else if in_range "A" "F" c then Some (Z.of_N (code c) - 55)%Z
  else None.

(** [parseInt(s, 16)] on a string with no leading whitespace, sign or
    [0x]: the value of the longest prefix of hexadecimal digits, [None]
    (that is [NaN]) when that prefix is empty. *)
Fixpoint parse_hex_prefix (acc : Z) (s : string) : Z :=
  match s with
  | EmptyString => acc
  | String c r =>
      match hex_value c with
      | Some d => parse_hex_prefix (16 * acc + d) r
      | None => acc
      end
  end.

Definition parseInt16 (s : string) : option Z :=
  match s with
  | EmptyString => None
  | String c _ =>
      match hex_value c with
      | Some _ => Some (parse_hex_prefix 0 s)
      | None => None
      end
  end.

(** [n / 255]; [NaN] propagates. *)
Definition div255 (n : option Z) : option Q :=
  match n with Some z => Some (z # 255) | None => None end.

End JS.

(** ** Helper functions *)

(** The three capture groups of [/^([a-f\d]{2})([a-f\d]{2})([a-f\d]{2})$/i]. *)
Definition hex_digit (c : ascii) : bool :=
  JS.is_digit c || JS.in_range "a" "f" c || JS.in_range "A" "F" c.

Definition pair_of (a b : ascii) : string := String a (String b EmptyString).

Definition six_hex_groups (s : string) : option (string * string * string) :=
  match s with
  | String c1 (String c2 (String c3 (String c4 (String c5 (String c6 EmptyString))))) =>
      if hex_digit c1 && hex_digit c2 && hex_digit c3
         && hex_digit c4 && hex_digit c5 && hex_digit c6
      then Some (pair_of c1 c2, pair_of c3 c4, pair_of c5 c6)
      else None
  | _ => None
  end.

(** [/^#?([a-f\d]{2})([a-f\d]{2})([a-f\d]{2})$/i.exec(hex)]: the optional
    [#] is tried first and given back when the rest does not match. *)
Definition hex_regex_exec (hex : string) : option (string * string * string) :=
  match hex with
  | String "#" rest =>
      match six_hex_groups rest with
      | Some g => Some g
      | None => six_hex_groups hex
      end
  | _ => six_hex_groups hex
  end.

Module Rgb.
Record t := mk { r : option Z; g : option Z; b : option Z }.
End Rgb.

Definition hexToRgb (hex : string) : Rgb.t :=
  match hex_regex_exec hex with
  | Some (g1, g2, g3) =>
      {| Rgb.r := JS.parseInt16 g1;
         Rgb.g := JS.parseInt16 g2;
         Rgb.b := JS.parseInt16 g3 |}
  | None => {| Rgb.r := Some 0%Z; Rgb.g := Some 0%Z; Rgb.b := Some 0%Z |}
  end.

Definition escape_class (c : ascii) : bool :=
  Ascii.eqb c "&" || Ascii.eqb c "<" || Ascii.eqb c ">"
  || Ascii.eqb c JS.dquote || Ascii.eqb c "'".

Definition escape_map : list (string * string) :=
  [ ("&", "&amp;");
    ("<", "&lt;");
    (">", "&gt;");
    (JS.DQ, "&quot;");
    ("'", "&#039;") ].

Definition escapeHtml (text : string) : string :=
  JS.replace_class escape_class (fun m => JS.to_string (JS.get escape_map m)) text.

(** ** Data model *)

(** A value of type [any] that [JSON.stringify] serialises: what the
    property bag of a design holds. *)
#[warnings="-register-all"]
Inductive json :=
  | JNull
  | JBool (b : bool)
  | JNum (n : JS.number)
  | JStr (s : string)
  | JArr (items : list json)
  | JObj (fields : gmap string json).

Module ExportComponent.
Record t := mk {
  id : string;
  type : string;
  title : string;
  content : string;
  x : JS.number;
  y : JS.number;
  width : JS.number;
  height : JS.number;
  bgColor : string;
  textColor : string;
  properties : gmap string json }.
End ExportComponent.

(** A token group [Record<string, string>], as [Object.entries] enumerates it. *)
Definition TokenGroup : Type := list (string * string).

Module DesignTokens.
Record t := mk {
  colors : option TokenGroup;
  typography : option TokenGroup;
  spacing : option TokenGroup }.

(** The object [{}]: no group is present. *)
Definition none : t := mk None None None.
End DesignTokens.

(** [group || {}] *)
Definition or_empty (group : option TokenGroup) : TokenGroup :=
  match group with Some entries => entries | None => [] end.

(** *** The Framer configuration *)

Module Framer.

Module Metadata.
Record t := mk { exportedAt : string; format : string }.
End Metadata.

Module Component.
Record t := mk {
  id : string;
  name : string;
  type : string;
  props : gmap string json;
  children : list json }.
End Component.

Module Frame.
Record t := mk {
  id : string;
  name : string;
  width : Z;
  height : Z;
  children : list string }.
End Frame.

Module Config.
Record t := mk {
  version : string;
  name : string;
  metadata : Metadata.t;
  designTokens : DesignTokens.t;
  components : list Component.t;
  frames : list Frame.t }.
End Config.

End Framer.

(** *** The Figma document *)

Module Figma.

Module Color.
Record t := mk { r : option Q; g : option Q; b : option Q; a : Z }.
End Color.

Module Paint.
Record t := mk { blendMode : string; type : string; color : Color.t }.
End Paint.

Module Text.
Record t := mk {
  id : string;
  name : string;
  type : string;
  characters : string;
  fills : list Paint.t }.
End Text.

Module Frame.
Record t := mk {
  id : string;
  name : string;
  type : string;
  x : JS.number;
  y : JS.number;
  width : JS.number;
  height : JS.number;
  fills : list Paint.t;
  children : list Text.t }.
End Frame.

Module Canvas.
Record t := mk {
  id : string;
  name : string;
  type : string;
  children : list Frame.t }.
End Canvas.

Module Document.
Record t := mk {
  id : string;
  name : string;
  type : string;
  children : list Canvas.t }.
End Document.

Module Style.
Record t := mk {
  key : string;
  name : string;
  description : string;
  remote : bool;
  paints : list Paint.t }.
End Style.

Module File.
Record t := mk {
  document : Document.t;
  assets : list json;
  styles : list Style.t }.
End File.

End Figma.

(** *** The Webflow site *)

Module Webflow.

Module Paragraph.
Record t := mk { _id : string; tag : string; text : string }.
End Paragraph.

Module InlineStyle.
Record t := mk {
  backgroundColor : string;
  color : string;
  width : string;
  height : string;
  position : string;
  left : string;
  top : string }.
End InlineStyle.

Module Attributes.
Record t := mk { data_component_type : string }.
End Attributes.

Module Node.
Record t := mk {
  _id : string;
  tag : string;
  text : string;
  role : string;
  classes : list string;
  customAttributes : Attributes.t;
  style : InlineStyle.t;
  children : list Paragraph.t }.
End Node.

Module Page.
Record t := mk {
  _id : string;
  createdOn : string;
  updatedOn : string;
  publishedOn : string;
  name : string;
  slug : string;
  title : string;
  rootElementId : string;
  children : list Node.t }.
End Page.

Module GlobalStyles.
Record t := mk {
  colors : TokenGroup;
  typography : TokenGroup;
  spacing : TokenGroup }.
End GlobalStyles.

Module Locale.
Record t := mk { _id : string; name : string; default : bool; code : string }.
End Locale.

Module Site.
Record t := mk {
  _id : string;
  createdOn : string;
  updatedOn : string;
  publishedOn : string;
  name : string;
  shortName : string;
  lastPublishedOn : string;
  createdBy : string;
  updatedBy : string;
  pages : list Page.t;
  globalStyles : GlobalStyles.t;
  cmsLocales : list Locale.t }.
End Site.

End Webflow.

(** *** What an export hands to storage, and what it returns *)

(** Storage receives the JSON text of a payload object, or the HTML text.
    The JSON text is a function of the object, so the object stands for it. *)

Inductive Payload :=
  | FramerJson (config : Framer.Config.t)
  | FigmaJson (file : Figma.File.t)
  | WebflowJson (site : Webflow.Site.t)
  | HtmlText (document : string).

Module ExportResult.
Record t := mk {
  url : string;
  fileKey : string;
  format : string;
  fileName : string }.
End ExportResult.

(** ** Effects *)

(** The world an export runs in.  [nanoid_values k] is what the [k]-th call
    of [nanoid()] returns and [clock_values k] what the [k]-th reading of
    the clock returns; [storage_answer key] is the url storage answers a
    write under [key] with, [None] when it rejects the write. *)
Module World.
Record t := mk {
  nanoid_values : nat -> string;
  nanoid_calls : nat;
  clock_values : nat -> string;
  clock_reads : nat;
  storage_answer : string -> option string;
  stored : list (string * Payload * string) }.

(** The world after one more call of [nanoid()]. *)
Definition drew_id (w : t) : t :=
  mk (nanoid_values w) (S (nanoid_calls w)) (clock_values w) (clock_reads w)
     (storage_answer w) (stored w).

(** The world after one more reading of the clock. *)
Definition read_clock (w : t) : t :=
  mk (nanoid_values w) (nanoid_calls w) (clock_values w) (S (clock_reads w))
     (storage_answer w) (stored w).

(** The world after an accepted write. *)
Definition wrote (key : string) (data : Payload) (contentType : string) (w : t) : t :=
  mk (nanoid_values w) (nanoid_calls w) (clock_values w) (clock_reads w)
     (storage_answer w) (stored w ++ [(key, data, contentType)]).
End World.

#[global] Arguments World.drew_id : simpl never.
#[global] Arguments World.read_clock : simpl never.
#[global] Arguments World.wrote : simpl never.

Definition M (A : Type) : Type := World.t -> A * World.t.

Definition ret {A} (a : A) : M A := fun w => (a, w).

Definition bind {A B} (c : M A) (k : A -> M B) : M B :=
  fun w => let (a, w') := c w in k a w'.

Declare Scope gen_scope.
Delimit Scope gen_scope with gen.
Notation "x <- c ;; k" := (bind c (fun x => k))
  (at level 100, c at next level, right associativity) : gen_scope.
Open Scope gen_scope.

Definition run {A} (c : M A) (w : World.t) : A := fst (c w).

Fixpoint mapM {A B} (f : A -> M B) (l : list A) : M (list B) :=
  match l with
  | [] => ret []
  | a :: rest =>
      b <- f a ;;
      bs <- mapM f rest ;;
      ret (b :: bs)
  end.

(** [nanoid()] *)
Definition nanoid : M string := fun w =>
  (World.nanoid_values w (World.nanoid_calls w), World.drew_id w).

(** [new Date().toISOString()] *)
Definition Date_toISOString : M string := fun w =>
  (World.clock_values w (World.clock_reads w), World.read_clock w).

(** Modelled from the spec: the module [./storage] is not among the
    sources.  The specification gives its contract: the storage
    collaborator takes a key, the content and a content type, stores the
    object durably and returns a retrievable url, and its failures
    propagate to the caller as they are.  [await storagePut(key, data,
    contentType)] is [Some url] when the write is accepted, and the object
    is then in the store; it is [None] when the call throws.  The store
    lists the accepted objects only: what a rejected write may leave
    behind is not recorded. *)
Definition storagePut (key : string) (data : Payload) (contentType : string)
  : M (option string) := fun w =>
  match World.storage_answer w key with
  | Some url => (Some url, World.wrote key data contentType w)
  | None => (None, w)
  end.

(** ** The Framer adapter *)

(** [{ ...fields, ...source }]: every own property of [source] is defined
    on the object built so far and replaces a property of the same name. *)
Definition spread (source fields : gmap string json) : gmap string json :=
  source ∪ fields.

Definition framer_explicit_props (comp : ExportComponent.t) : gmap string json :=
  <["y" := JNum (ExportComponent.y comp)]>
  (<["x" := JNum (ExportComponent.x comp)]>
  (<["height" := JNum (ExportComponent.height comp)]>
  (<["width" := JNum (ExportComponent.width comp)]>
  (<["textColor" := JStr (ExportComponent.textColor comp)]>
  (<["backgroundColor" := JStr (ExportComponent.bgColor comp)]>
  (<["content" := JStr (ExportComponent.content comp)]>
  (<["title" := JStr (ExportComponent.title comp)]> ∅))))))).

Definition framer_component (comp : ExportComponent.t) : Framer.Component.t :=
  {| Framer.Component.id := ExportComponent.id comp;
     Framer.Component.name := ExportComponent.title comp;
     Framer.Component.type := ExportComponent.type comp;
     Framer.Component.props :=
       spread (ExportComponent.properties comp) (framer_explicit_props comp);
     Framer.Component.children := [] |}.

Definition framerConfig (components : list ExportComponent.t)
    (designTokens : DesignTokens.t) (projectName : string) : M Framer.Config.t :=
  now <- Date_toISOString ;;
  ret {| Framer.Config.version := "1.0.0";
         Framer.Config.name := projectName;
         Framer.Config.metadata :=
           {| Framer.Metadata.exportedAt := now;
              Framer.Metadata.format := "framer" |};
         Framer.Config.designTokens := designTokens;
         Framer.Config.components := map framer_component components;
         Framer.Config.frames :=
           [ {| Framer.Frame.id := "frame-1";
                Framer.Frame.name := "Main Frame";
                Framer.Frame.width := 1440;
                Framer.Frame.height := Z.of_nat (length components) * 400;
                Framer.Frame.children := map ExportComponent.id components |} ] |}.

Definition exportToFramer (components : list ExportComponent.t)
    (designTokens : DesignTokens.t) (projectName : string)
  : M (option ExportResult.t) :=
  config <- framerConfig components designTokens projectName ;;
  unique <- nanoid ;;
  let fileKey := "exports/" ++ projectName ++ "/framer-" ++ unique ++ ".json" in
  answer <- storagePut fileKey (FramerJson config) "application/json" ;;
  ret (match answer with
       | Some url =>
           Some {| ExportResult.url := url;
                   ExportResult.fileKey := fileKey;
                   ExportResult.format := "framer";
                   ExportResult.fileName := projectName ++ "-framer.json" |}
       | None => None
       end).

(** ** The Figma adapter *)

Definition solid_paint (hex : string) : Figma.Paint.t :=
  {| Figma.Paint.blendMode := "NORMAL";
     Figma.Paint.type := "SOLID";
     Figma.Paint.color :=
       {| Figma.Color.r := JS.div255 (Rgb.r (hexToRgb hex));
          Figma.Color.g := JS.div255 (Rgb.g (hexToRgb hex));
          Figma.Color.b := JS.div255 (Rgb.b (hexToRgb hex));
          Figma.Color.a := 1 |} |}.

Definition figma_text (idx : nat) (comp : ExportComponent.t) : Figma.Text.t :=
  {| Figma.Text.id := JS.Integer_toString (Z.of_nat idx) ++ ":1";
     Figma.Text.name := "Text";
     Figma.Text.type := "TEXT";
     Figma.Text.characters := ExportComponent.content comp;
     Figma.Text.fills := [ solid_paint (ExportComponent.textColor comp) ] |}.

Definition figma_frame (idx : nat) (comp : ExportComponent.t) : Figma.Frame.t :=
  {| Figma.Frame.id := JS.Integer_toString (Z.of_nat idx) ++ ":0";
     Figma.Frame.name := ExportComponent.title comp;
     Figma.Frame.type := "FRAME";
     Figma.Frame.x := ExportComponent.x comp;
     Figma.Frame.y := ExportComponent.y comp;
     Figma.Frame.width := (ExportComponent.width comp * 10)%float;
     Figma.Frame.height := (ExportComponent.height comp * 10)%float;
     Figma.Frame.fills := [ solid_paint (ExportComponent.bgColor comp) ];
     Figma.Frame.children := [ figma_text idx comp ] |}.

Definition figma_style (entry : string * string) : M Figma.Style.t :=
  let (name, color) := entry in
  key <- nanoid ;;
  ret {| Figma.Style.key := key;
         Figma.Style.name := "Color/" ++ name;
         Figma.Style.description := "Color token: " ++ name;
         Figma.Style.remote := false;
         Figma.Style.paints := [ solid_paint color ] |}.

Definition figmaDocument (components : list ExportComponent.t)
    (designTokens : DesignTokens.t) (projectName : string) : M Figma.File.t :=
  styles <- mapM figma_style (or_empty (DesignTokens.colors designTokens)) ;;
  ret {| Figma.File.document :=
           {| Figma.Document.id := "0:0";
              Figma.Document.name := projectName;
              Figma.Document.type := "DOCUMENT";
              Figma.Document.children :=
                [ {| Figma.Canvas.id := "1:0";
                     Figma.Canvas.name := "Page 1";
                     Figma.Canvas.type := "CANVAS";
                     Figma.Canvas.children := imap figma_frame components |} ] |};
         Figma.File.assets := [];
         Figma.File.styles := styles |}.

Definition exportToFigma (components : list ExportComponent.t)
    (designTokens : DesignTokens.t) (projectName : string)
  : M (option ExportResult.t) :=
  file <- figmaDocument components designTokens projectName ;;
  unique <- nanoid ;;
  let fileKey := "exports/" ++ projectName ++ "/figma-" ++ unique ++ ".json" in
  answer <- storagePut fileKey (FigmaJson file) "application/json" ;;
  ret (match answer with
       | Some url =>
           Some {| ExportResult.url := url;
                   ExportResult.fileKey := fileKey;
                   ExportResult.format := "figma";
                   ExportResult.fileName := projectName ++ "-figma.json" |}
       | None => None
       end).

(** ** The Webflow adapter *)

Definition webflow_node (comp : ExportComponent.t) : M Webflow.Node.t :=
  child_id <- nanoid ;;
  ret {| Webflow.Node._id := ExportComponent.id comp;
         Webflow.Node.tag := "div";
         Webflow.Node.text := ExportComponent.title comp;
         Webflow.Node.role := "section";
         Webflow.Node.classes := [ "component-" ++ ExportComponent.type comp ];
         Webflow.Node.customAttributes :=
           {| Webflow.Attributes.data_component_type := ExportComponent.type comp |};
         Webflow.Node.style :=
           {| Webflow.InlineStyle.backgroundColor := ExportComponent.bgColor comp;
              Webflow.InlineStyle.color := ExportComponent.textColor comp;
              Webflow.InlineStyle.width :=
                JS.Number_toString (ExportComponent.width comp) ++ "%";
              Webflow.InlineStyle.height :=
                JS.Number_toString (ExportComponent.height comp) ++ "px";
              Webflow.InlineStyle.position := "relative";
              Webflow.InlineStyle.left :=
                JS.Number_toString (ExportComponent.x comp) ++ "%";
              Webflow.InlineStyle.top :=
                JS.Number_toString (ExportComponent.y comp) ++ "px" |};
         Webflow.Node.children :=
           [ {| Webflow.Paragraph._id := child_id;
                Webflow.Paragraph.tag := "p";
                Webflow.Paragraph.text := ExportComponent.content comp |} ] |}.

Definition webflowSite (components : list ExportComponent.t)
    (designTokens : DesignTokens.t) (projectName : string) : M Webflow.Site.t :=
  site_id <- nanoid ;;
  site_created <- Date_toISOString ;;
  site_updated <- Date_toISOString ;;
  site_published <- Date_toISOString ;;
  site_last_published <- Date_toISOString ;;
  page_id <- nanoid ;;
  page_created <- Date_toISOString ;;
  page_updated <- Date_toISOString ;;
  page_published <- Date_toISOString ;;
  root_id <- nanoid ;;
  nodes <- mapM webflow_node components ;;
  locale_id <- nanoid ;;
  ret {| Webflow.Site._id := site_id;
         Webflow.Site.createdOn := site_created;
         Webflow.Site.updatedOn := site_updated;
         Webflow.Site.publishedOn := site_published;
         Webflow.Site.name := projectName;
         Webflow.Site.shortName :=
           JS.replace_space_runs "-" false (JS.toLowerCase projectName);
         Webflow.Site.lastPublishedOn := site_last_published;
         Webflow.Site.createdBy := "ai-builder";
         Webflow.Site.updatedBy := "ai-builder";
         Webflow.Site.pages :=
           [ {| Webflow.Page._id := page_id;
                Webflow.Page.createdOn := page_created;
                Webflow.Page.updatedOn := page_updated;
                Webflow.Page.publishedOn := page_published;
                Webflow.Page.name := "Home";
                Webflow.Page.slug := "index";
                Webflow.Page.title := projectName ++ " - Home";
                Webflow.Page.rootElementId := root_id;
                Webflow.Page.children := nodes |} ];
         Webflow.Site.globalStyles :=
           {| Webflow.GlobalStyles.colors := or_empty (DesignTokens.colors designTokens);
              Webflow.GlobalStyles.typography := or_empty (DesignTokens.typography designTokens);
              Webflow.GlobalStyles.spacing := or_empty (DesignTokens.spacing designTokens) |};
         Webflow.Site.cmsLocales :=
           [ {| Webflow.Locale._id := locale_id;
                Webflow.Locale.name := "English";
                Webflow.Locale.default := true;
                Webflow.Locale.code := "en" |} ] |}.

Definition exportToWebflow (components : list ExportComponent.t)
    (designTokens : DesignTokens.t) (projectName : string)
  : M (option ExportResult.t) :=
  site <- webflowSite components designTokens projectName ;;
  unique <- nanoid ;;
  let fileKey := "exports/" ++ projectName ++ "/webflow-" ++ unique ++ ".json" in
  answer <- storagePut fileKey (WebflowJson site) "application/json" ;;
  ret (match answer with
       | Some url =>
           Some {| ExportResult.url := url;
                   ExportResult.fileKey := fileKey;
                   ExportResult.format := "webflow";
                   ExportResult.fileName := projectName ++ "-webflow.json" |}
       | None => None
       end).

(** ** The HTML adapter *)

Definition css_variable (entry : string * string) : string :=
  let (name, color) := entry in
  "  --color-" ++ JS.toLowerCase name ++ ": " ++ color ++ ";".

Definition cssVariables (designTokens : DesignTokens.t) : string :=
  JS.join JS.NL (map css_variable (or_empty (DesignTokens.colors designTokens))).

Definition section_open (comp : ExportComponent.t) : string :=
  "<section class=" ++ JS.DQ ++ "component component-"
  ++ ExportComponent.type comp ++ JS.DQ.

Definition section_style (comp : ExportComponent.t) : string :=
  "style=" ++ JS.DQ ++ "background-color: " ++ ExportComponent.bgColor comp
  ++ "; color: " ++ ExportComponent.textColor comp
  ++ "; width: " ++ JS.Number_toString (ExportComponent.width comp)
  ++ "%; height: " ++ JS.Number_toString (ExportComponent.height comp)
  ++ "px;" ++ JS.DQ.

Definition section_html (comp : ExportComponent.t) : string :=
  "
  " ++ section_open comp ++ " " ++ section_style comp ++ ">
    <div class=" ++ JS.DQ ++ "component-content" ++ JS.DQ ++ ">
      <h2>" ++ escapeHtml (ExportComponent.title comp) ++ "</h2>
      <p>" ++ escapeHtml (ExportComponent.content comp) ++ "</p>
    </div>
  </section>
".

Definition componentsHTML (components : list ExportComponent.t) : string :=
  JS.join JS.NL (map section_html components).

(** The fixed text of the document, cut at its three interpolations. *)
Definition html_head : string :=
  "<!DOCTYPE html>
<html lang=" ++ JS.DQ ++ "en" ++ JS.DQ ++ ">
<head>
  <meta charset=" ++ JS.DQ ++ "UTF-8" ++ JS.DQ ++ ">
  <meta name=" ++ JS.DQ ++ "viewport" ++ JS.DQ ++ " content=" ++ JS.DQ ++ "width=device-width, initial-scale=1.0" ++ JS.DQ ++ ">
  <title>".

Definition html_root_open : string :=
  "</title>
  <style>
    :root {
".

Definition html_rules : string :=
  "
    }

    * {
      margin: 0;
      padding: 0;
      box-sizing: border-box;
    }

    body {
      font-family: -apple-system, BlinkMacSystemFont, 'Segoe UI', Roboto, Oxygen, Ubuntu, Cantarell, sans-serif;
      line-height: 1.6;
      color: #333;
    }

    .container {
      max-width: 1440px;
      margin: 0 auto;
      padding: 0 20px;
    }

    .component {
      padding: 40px 20px;
      margin: 20px 0;
      border-radius: 8px;
      transition: all 0.3s ease;
    }

    .component-content {
      max-width: 1200px;
      margin: 0 auto;
    }

    .component-content h2 {
      font-size: 2rem;
      margin-bottom: 1rem;
      font-weight: 600;
    }

    .component-content p {
      font-size: 1rem;
      line-height: 1.8;
      opacity: 0.9;
    }

    /* Responsive Design */
    @media (max-width: 768px) {
      .component {
        padding: 30px 15px;
      }

      .component-content h2 {
        font-size: 1.5rem;
      }

      .component-content p {
        font-size: 0.95rem;
      }
    }

    @media (max-width: 480px) {
      .component {
        padding: 20px 10px;
      }

      .component-content h2 {
        font-size: 1.25rem;
      }

      .component-content p {
        font-size: 0.9rem;
      }
    }
  </style>
</head>
<body>
  <div class=" ++ JS.DQ ++ "container" ++ JS.DQ ++ ">
".

Definition html_tail : string :=
  "
  </div>
</body>
</html>".

Definition html_template (projectName cssVariables componentsHTML : string) : string :=
  html_head ++ escapeHtml projectName
  ++ html_root_open ++ cssVariables
  ++ html_rules ++ componentsHTML
  ++ html_tail.

Definition htmlContent (components : list ExportComponent.t)
    (designTokens : DesignTokens.t) (projectName : string) : string :=
  html_template projectName (cssVariables designTokens) (componentsHTML components).

Definition exportToHTML (components : list ExportComponent.t)
    (designTokens : DesignTokens.t) (projectName : string)
  : M (option ExportResult.t) :=
  let document := htmlContent components designTokens projectName in
  unique <- nanoid ;;
  let fileKey := "exports/" ++ projectName ++ "/html-" ++ unique ++ ".html" in
  answer <- storagePut fileKey (HtmlText document) "text/html" ;;
  ret (match answer with
       | Some url =>
           Some {| ExportResult.url := url;
                   ExportResult.fileKey := fileKey;
                   ExportResult.format := "html";
                   ExportResult.fileName := projectName ++ ".html" |}
       | None => None
       end).

(** ** Vocabulary of the specification *)

Definition chars (s : string) : list ascii := list_ascii_of_string s.

(** [p] occurs in [s]. *)
Definition contains (s p : string) : Prop :=
  exists before after, s = before ++ p ++ after.

(** [s] begins with [p]. *)
Fixpoint starts_with (p s : string) : bool :=
  match p with
  | EmptyString => true
  | String a p' =>
      match s with
      | EmptyString => false
      | String b s' => Ascii.eqb a b && starts_with p' s'
      end
  end.

(** Number of positions of [s] at which [p] starts. *)
Fixpoint occurrences (p s : string) : nat :=
  match s with
  | EmptyString => 0
  | String _ rest => (if starts_with p s then 1 else 0) + occurrences p rest
  end.

(** [c] is not a character of [s]. *)
Fixpoint lacks (c : ascii) (s : string) : bool :=
  match s with
  | EmptyString => true
  | String x rest => negb (Ascii.eqb x c) && lacks c rest
  end.

(** No non-empty suffix of [lit] is a proper prefix of [p]: an occurrence
    of [p] cannot start in [lit] and end after it. *)
Fixpoint no_partial (p lit : string) : bool :=
  match lit with
  | EmptyString => true
  | String _ rest =>
      negb (starts_with lit p && Nat.ltb (String.length lit) (String.length p))
      && no_partial p rest
  end.

(** *** Colours, in the specification's words *)

(** A hexadecimal digit, in either case. *)
Definition spec_hex_digit (c : ascii) : Prop :=
  In c (chars "0123456789abcdefABCDEF").

(** Exactly six hexadecimal digits, optionally preceded by [#]. *)
Definition spec_six_digits (body : string) : Prop :=
  String.length body = 6 /\ Forall spec_hex_digit (chars body).

Definition spec_valid_hex (hex : string) : Prop :=
  exists body, (hex = body \/ hex = String "#" body) /\ spec_six_digits body.

Fixpoint index_of (c : ascii) (s : string) : option nat :=
  match s with
  | EmptyString => None
  | String x rest =>
      if Ascii.eqb x c then Some 0
      else match index_of c rest with Some i => Some (S i) | None => None end
  end.

(** The value a digit stands for: its rank among the sixteen digits. *)
Definition spec_digit_value (c : ascii) : Z :=
  match index_of c "0123456789abcdef", index_of c "0123456789ABCDEF" with
  | Some i, _ => Z.of_nat i
  | None, Some i => Z.of_nat i
  | None, None => 0
  end.

Definition spec_channel (hi lo : ascii) : Z :=
  16 * spec_digit_value hi + spec_digit_value lo.

(** The channels six digits [rrggbb] denote. *)
Definition spec_channels (body : string) : Rgb.t :=
  match chars body with
  | [r1; r2; g1; g2; b1; b2] =>
      Rgb.mk (Some (spec_channel r1 r2)) (Some (spec_channel g1 g2))
             (Some (spec_channel b1 b2))
  | _ => Rgb.mk (Some 0%Z) (Some 0%Z) (Some 0%Z)
  end.

Definition black : Rgb.t := Rgb.mk (Some 0%Z) (Some 0%Z) (Some 0%Z).

(** *** Escaping, in the specification's words *)

(** The entity of each of the five significant characters; any other
    character stands for itself. *)
Definition entity (c : ascii) : string :=
  if Ascii.eqb c "&" then "&amp;"
  else if Ascii.eqb c "<" then "&lt;"
  else if Ascii.eqb c ">" then "&gt;"
  else if Ascii.eqb c JS.dquote then "&quot;"
  else if Ascii.eqb c "'" then "&#039;"
  else String c EmptyString.

Definition significant (c : ascii) : Prop :=
  c = "&"%char \/ c = "<"%char \/ c = ">"%char \/ c = JS.dquote \/ c = "'"%char.

(** *** The explicit fields of a Framer props object *)

(** The value the object literal gives the field called [key], before the
    properties are spread over it. *)
Definition explicit_field (comp : ExportComponent.t) (key : string) : option json :=
  if String.eqb "y" key then Some (JNum (ExportComponent.y comp))
  else if String.eqb "x" key then Some (JNum (ExportComponent.x comp))
  else if String.eqb "height" key then Some (JNum (ExportComponent.height comp))
  else if String.eqb "width" key then Some (JNum (ExportComponent.width comp))
  else if String.eqb "textColor" key then Some (JStr (ExportComponent.textColor comp))
  else if String.eqb "backgroundColor" key then Some (JStr (ExportComponent.bgColor comp))
  else if String.eqb "content" key then Some (JStr (ExportComponent.content comp))
  else if String.eqb "title" key then Some (JStr (ExportComponent.title comp))
  else None.

(** *** Values the HTML adapter interpolates as they are *)

(** The text an opening section tag begins with. *)
Definition section_tag : string := "<section".

(** A string free of [<]. *)
Definition markup_free (s : string) : Prop := lacks "<" s = true.

Definition plain_component (comp : ExportComponent.t) : Prop :=
  markup_free (ExportComponent.type comp)
  /\ markup_free (ExportComponent.bgColor comp)
  /\ markup_free (ExportComponent.textColor comp).

Definition plain_tokens (designTokens : DesignTokens.t) : Prop :=
  Forall (fun entry : string * string =>
            markup_free (fst entry) /\ markup_free (snd entry))
         (or_empty (DesignTokens.colors designTokens)).

(** *** The class attribute of a section *)

(** The text of an opening section tag up to the value of its class
    attribute. *)
Definition section_class_opening : string := "<section class=" ++ JS.DQ.

(** The text that follows each occurrence of [p] in [s], in order. *)
Fixpoint after_each (p s : string) : list string :=
  match s with
  | EmptyString => []
  | String _ rest =>
      (if starts_with p s then [JS.drop (String.length p) s] else [])
      ++ after_each p rest
  end.

(** The value of an attribute whose opening quote has been read: the text
    before the next double quote. *)
Fixpoint attribute_value (s : string) : string :=
  match s with
  | EmptyString => EmptyString
  | String c rest =>
      if Ascii.eqb c JS.dquote then EmptyString
      else String c (attribute_value rest)
  end.

(** The characters that separate the names of a class attribute: tab, line
    feed, form feed, carriage return and space. *)
Definition html_space (c : ascii) : bool :=
  Ascii.eqb c "009" || Ascii.eqb c "010" || Ascii.eqb c "012"
  || Ascii.eqb c "013" || Ascii.eqb c " ".

(** The class names a class attribute value lists. *)
Fixpoint class_names (value : string) : list string :=
  match value with
  | EmptyString => []
  | String c rest =>
      if html_space c then class_names rest
      else match rest with
           | EmptyString => [String c EmptyString]
           | String d _ =>
               if html_space d then String c EmptyString :: class_names rest
               else match class_names rest with
                    | name :: names => String c name :: names
                    | [] => [String c EmptyString]
                    end
           end
  end.

(** The class names of each section tag of a document, in document order. *)
Definition section_classes (document : string) : list (list string) :=
  map (fun rest => class_names (attribute_value rest))
      (after_each section_class_opening document).





(** *** What an export delivers *)

(** The export returned a result of the given format and file name, and
    appended to the store one object: the payload, under the key the
    result names, with the content type. *)
Definition delivers (export : M (option ExportResult.t)) (w : World.t)
    (format fileName : string) (payload : Payload) (contentType : string) : Prop :=
  exists result,
    run export w = Some result
    /\ ExportResult.format result = format
    /\ ExportResult.fileName result = fileName
    /\ World.stored (snd (export w))
       = (World.stored w
          ++ [(ExportResult.fileKey result, payload, contentType)])%list.

(** The text of a document from the end of its title to the end of an
    empty [:root] block, and the text that ends a document whose container
    is empty. *)
Definition empty_root_block : string :=
  "</title>" ++ JS.NL ++ "  <style>" ++ JS.NL
  ++ "    :root {" ++ JS.NL ++ JS.NL ++ "    }".

Definition empty_container : string :=
  "<div class=" ++ JS.DQ ++ "container" ++ JS.DQ ++ ">" ++ JS.NL ++ JS.NL
  ++ "  </div>" ++ JS.NL ++ "</body>" ++ JS.NL ++ "</html>".

(** *** ASCII text *)

(** A string all of whose characters are ASCII characters. *)
Definition ascii_text (s : string) : Prop :=
  Forall (fun c => (JS.code c < 128)%N) (chars s).

(** *** Run-dependent fields *)

(** Each function below blanks the fields of a payload that are drawn from
    [nanoid()] or from the clock. *)
Definition blank_framer (c : Framer.Config.t) : Framer.Config.t :=
  Framer.Config.mk (Framer.Config.version c) (Framer.Config.name c)
    (Framer.Metadata.mk "" (Framer.Metadata.format (Framer.Config.metadata c)))
    (Framer.Config.designTokens c) (Framer.Config.components c)
    (Framer.Config.frames c).

Definition blank_style (s : Figma.Style.t) : Figma.Style.t :=
  Figma.Style.mk "" (Figma.Style.name s) (Figma.Style.description s)
    (Figma.Style.remote s) (Figma.Style.paints s).

Definition blank_figma (f : Figma.File.t) : Figma.File.t :=
  Figma.File.mk (Figma.File.document f) (Figma.File.assets f)
    (map blank_style (Figma.File.styles f)).

Definition blank_paragraph (p : Webflow.Paragraph.t) : Webflow.Paragraph.t :=
  Webflow.Paragraph.mk "" (Webflow.Paragraph.tag p) (Webflow.Paragraph.text p).

Definition blank_node (n : Webflow.Node.t) : Webflow.Node.t :=
  Webflow.Node.mk (Webflow.Node._id n) (Webflow.Node.tag n) (Webflow.Node.text n)
    (Webflow.Node.role n) (Webflow.Node.classes n)
    (Webflow.Node.customAttributes n) (Webflow.Node.style n)
    (map blank_paragraph (Webflow.Node.children n)).

Definition blank_page (p : Webflow.Page.t) : Webflow.Page.t :=
  Webflow.Page.mk "" "" "" "" (Webflow.Page.name p) (Webflow.Page.slug p)
    (Webflow.Page.title p) "" (map blank_node (Webflow.Page.children p)).

Definition blank_locale (l : Webflow.Locale.t) : Webflow.Locale.t :=
  Webflow.Locale.mk "" (Webflow.Locale.name l) (Webflow.Locale.default l)
    (Webflow.Locale.code l).

Definition blank_webflow (s : Webflow.Site.t) : Webflow.Site.t :=
  Webflow.Site.mk "" "" "" "" (Webflow.Site.name s) (Webflow.Site.shortName s) ""
    (Webflow.Site.createdBy s) (Webflow.Site.updatedBy s)
    (map blank_page (Webflow.Site.pages s)) (Webflow.Site.globalStyles s)
    (map blank_locale (Webflow.Site.cmsLocales s)).

(** The storage of a world accepts every write. *)
Definition accepting (w : World.t) : Prop :=
  forall key, World.storage_answer w key <> None.

Definition blank_payload (p : Payload) : Payload :=
  match p with
  | FramerJson config => FramerJson (blank_framer config)
  | FigmaJson file => FigmaJson (blank_figma file)
  | WebflowJson site => WebflowJson (blank_webflow site)
  | HtmlText document => HtmlText document
  end.

(** The payload of the last write of a run. *)
Definition handed_over {A} (export : M A) (w : World.t) : option Payload :=
  last (map (fun entry => snd (fst entry)) (World.stored (snd (export w)))).

(** ** Sample data *)

(** The component and the tokens the test suite exports. *)
Definition hero : ExportComponent.t :=
  {| ExportComponent.id := "comp-1";
     ExportComponent.type := "hero";
     ExportComponent.title := "Hero Section";
     ExportComponent.content := "Welcome to our website";
     ExportComponent.x := 0%float;
     ExportComponent.y := 0%float;
     ExportComponent.width := 100%float;
     ExportComponent.height := 400%float;
     ExportComponent.bgColor := "#3B82F6";
     ExportComponent.textColor := "#FFFFFF";
     ExportComponent.properties := ∅ |}.

Definition brand_tokens : DesignTokens.t :=
  {| DesignTokens.colors :=
       Some [("primary", "#3B82F6"); ("secondary", "#10B981"); ("accent", "#F59E0B")];
     DesignTokens.typography :=
       Some [("fontFamily", "Inter, sans-serif"); ("headingSize", "2rem");
             ("bodySize", "1rem")];
     DesignTokens.spacing := Some [("sm", "0.5rem"); ("md", "1rem"); ("lg", "2rem")] |}.

(** The hero with a property named like an explicit field. *)
Definition hero_with_width_property : ExportComponent.t :=
  {| ExportComponent.id := "comp-1";
     ExportComponent.type := "hero";
     ExportComponent.title := "Hero Section";
     ExportComponent.content := "Welcome to our website";
     ExportComponent.x := 0%float;
     ExportComponent.y := 0%float;
     ExportComponent.width := 100%float;
     ExportComponent.height := 400%float;
     ExportComponent.bgColor := "#3B82F6";
     ExportComponent.textColor := "#FFFFFF";
     ExportComponent.properties := {[ "width" := JStr "50%" ]} |}.

(** A component whose type closes the class attribute and the tag it is
    written into, and opens a tag of its own. *)
Definition breakout_type : string :=
  "x" ++ JS.DQ ++ "><section class=" ++ JS.DQ ++ "y".

Definition breakout : ExportComponent.t :=
  {| ExportComponent.id := "comp-1";
     ExportComponent.type := breakout_type;
     ExportComponent.title := "Hero Section";
     ExportComponent.content := "Welcome to our website";
     ExportComponent.x := 0%float;
     ExportComponent.y := 0%float;
     ExportComponent.width := 100%float;
     ExportComponent.height := 400%float;
     ExportComponent.bgColor := "#3B82F6";
     ExportComponent.textColor := "#FFFFFF";
     ExportComponent.properties := ∅ |}.

(** A component whose width is the largest odd integer a number holds
    exactly, whose height is not an integer and whose left edge is not a
    number. *)
Definition stretched : ExportComponent.t :=
  {| ExportComponent.id := "comp-3";
     ExportComponent.type := "banner";
     ExportComponent.title := "Banner";
     ExportComponent.content := "Wide";
     ExportComponent.x := nan;
     ExportComponent.y := (-0.5)%float;
     ExportComponent.width := 9007199254740991%float;
     ExportComponent.height := 33.5%float;
     ExportComponent.bgColor := "#000000";
     ExportComponent.textColor := "#ffffff";
     ExportComponent.properties := ∅ |}.

(** A world that has drawn no id and read no clock yet, whose storage is
    empty and accepts every write. *)
Definition fresh_world (ids clock : nat -> string) : World.t :=
  {| World.nanoid_values := ids;
     World.nanoid_calls := 0;
     World.clock_values := clock;
     World.clock_reads := 0;
     World.storage_answer := fun key => Some ("https://storage.example/" ++ key);
     World.stored := [] |}.

(** Two sequences of ids that differ in the first id only. *)
Definition ids_a (k : nat) : string :=
  match k with 0 => "V1StGXR8_Z5jdHi6B-myT" | _ => "Uakgb_J5m9g-0JDMbcJqL" end.

Definition ids_b (k : nat) : string :=
  match k with 0 => "ppBqWA9-2hP4_kjsr7mXT" | _ => "Uakgb_J5m9g-0JDMbcJqL" end.

Definition at_noon (k : nat) : string := "2024-05-01T12:00:00.000Z".
Definition at_midnight (k : nat) : string := "2024-05-02T00:00:00.000Z".

(** ** Vocabulary of the further properties *)

(** The world after [ids] more calls of [nanoid()] and [reads] more readings
    of the clock. *)
Definition advanced (ids reads : nat) (w : World.t) : World.t :=
  World.mk (World.nanoid_values w) (ids + World.nanoid_calls w)
           (World.clock_values w) (reads + World.clock_reads w)
           (World.storage_answer w) (World.stored w).

(** [nanoid()] never returns the same id twice. *)
Definition fresh_ids (w : World.t) : Prop :=
  forall i j, World.nanoid_values w i = World.nanoid_values w j -> i = j.

(** The storage key of an export: [exports/<projectName>/<format>-<id><ext>]. *)
Definition storage_key (projectName format unique ext : string) : string :=
  "exports/" ++ projectName ++ "/" ++ format ++ "-" ++ unique ++ ext.

(** The four exports, with the format tag, the extension and the content
    type each writes, and the suffix of the file name it suggests. *)
Inductive Format := FramerFormat | FigmaFormat | WebflowFormat | HtmlFormat.

Definition export_of (f : Format)
  : list ExportComponent.t -> DesignTokens.t -> string -> M (option ExportResult.t) :=
  match f with
  | FramerFormat => exportToFramer
  | FigmaFormat => exportToFigma
  | WebflowFormat => exportToWebflow
  | HtmlFormat => exportToHTML
  end.

Definition format_tag (f : Format) : string :=
  match f with
  | FramerFormat => "framer"
  | FigmaFormat => "figma"
  | WebflowFormat => "webflow"
  | HtmlFormat => "html"
  end.

Definition format_ext (f : Format) : string :=
  match f with HtmlFormat => ".html" | _ => ".json" end.

Definition format_mime (f : Format) : string :=
  match f with HtmlFormat => "text/html" | _ => "application/json" end.

Definition format_file_name (f : Format) (projectName : string) : string :=
  match f with
  | HtmlFormat => projectName ++ ".html"
  | _ => projectName ++ "-" ++ format_tag f ++ ".json"
  end.

(** The payload an export builds in a world. *)
Definition payload_of (f : Format) (components : list ExportComponent.t)
    (designTokens : DesignTokens.t) (projectName : string) (w : World.t) : Payload :=
  match f with
  | FramerFormat => FramerJson (run (framerConfig components designTokens projectName) w)
  | FigmaFormat => FigmaJson (run (figmaDocument components designTokens projectName) w)
  | WebflowFormat => WebflowJson (run (webflowSite components designTokens projectName) w)
  | HtmlFormat => HtmlText (htmlContent components designTokens projectName)
  end.

(** The ids and the clock readings an export draws before the id of its key. *)
Definition ids_before_key (f : Format) (components : list ExportComponent.t)
    (designTokens : DesignTokens.t) : nat :=
  match f with
  | FramerFormat => 0
  | FigmaFormat => length (or_empty (DesignTokens.colors designTokens))
  | WebflowFormat => 4 + length components
  | HtmlFormat => 0
  end.

Definition clock_readings (f : Format) : nat :=
  match f with
  | FramerFormat => 1
  | WebflowFormat => 7
  | _ => 0
  end.

(** What an export returns and the world it leaves, in closed form: it draws
    the id of its key after the ids of its payload, asks storage once, and
    on acceptance records the one write. *)
Definition outcome (f : Format) (components : list ExportComponent.t)
    (designTokens : DesignTokens.t) (projectName : string) (w : World.t)
  : option ExportResult.t * World.t :=
  let k := ids_before_key f components designTokens in
  let key := storage_key projectName (format_tag f)
               (World.nanoid_values w (k + World.nanoid_calls w)) (format_ext f) in
  let after := advanced (S k) (clock_readings f) w in
  match World.storage_answer w key with
  | Some url =>
      (Some {| ExportResult.url := url;
               ExportResult.fileKey := key;
               ExportResult.format := format_tag f;
               ExportResult.fileName := format_file_name f projectName |},
       World.wrote key (payload_of f components designTokens projectName w)
         (format_mime f) after)
  | None => (None, after)
  end.

(** The generated ids a Webflow site carries, in document order: the ids of
    the site, of each page and its root element, of the paragraphs of its
    nodes, and of the locales. *)
Definition webflow_generated_ids (site : Webflow.Site.t) : list string :=
  (Webflow.Site._id site
   :: flat_map
        (fun page =>
           Webflow.Page._id page
           :: Webflow.Page.rootElementId page
           :: flat_map (fun node => map Webflow.Paragraph._id (Webflow.Node.children node))
                (Webflow.Page.children page))
        (Webflow.Site.pages site))
  ++ map Webflow.Locale._id (Webflow.Site.cmsLocales site).

(** The frames of a Figma file, and the ids of the frames and of their texts. *)
Definition figma_frames (file : Figma.File.t) : list Figma.Frame.t :=
  flat_map Figma.Canvas.children
    (Figma.Document.children (Figma.File.document file)).

Definition figma_frame_ids (file : Figma.File.t) : list string :=
  map Figma.Frame.id (figma_frames file).

Definition figma_text_ids (file : Figma.File.t) : list string :=
  flat_map (fun frame => map Figma.Text.id (Figma.Frame.children frame))
    (figma_frames file).

(** The capture groups of a match, in lower case. *)
Definition lower_groups (g : string * string * string) : string * string * string :=
  (JS.toLowerCase (fst (fst g)), JS.toLowerCase (snd (fst g)), JS.toLowerCase (snd g)).

(** An upper-case letter of the ASCII range. *)
Definition is_upper (c : ascii) : bool := JS.in_range "A" "Z" c.

(** The names of the explicit fields of a Framer props object. *)
Definition explicit_keys : gset string :=
  list_to_set ["title"; "content"; "backgroundColor"; "textColor";
               "width"; "height"; "x"; "y"].

(** Every paint of a Figma file: the fills of the frames and of their
    texts, and the paints of the styles. *)
Definition figma_paints (file : Figma.File.t) : list Figma.Paint.t :=
  flat_map Figma.Frame.fills (figma_frames file)
  ++ flat_map (fun frame => flat_map Figma.Text.fills (Figma.Frame.children frame))
       (figma_frames file)
  ++ flat_map Figma.Style.paints (Figma.File.styles file).

(** A channel that is a number between 0 and 1. *)
Definition unit_channel (q : option Q) : Prop :=
  match q with Some v => (0 <= v)%Q /\ (v <= 1)%Q | None => False end.

(** An opaque solid paint whose channels are numbers between 0 and 1. *)
Definition unit_solid_paint (p : Figma.Paint.t) : Prop :=
  Figma.Paint.type p = "SOLID"
  /\ Figma.Paint.blendMode p = "NORMAL"
  /\ unit_channel (Figma.Color.r (Figma.Paint.color p))
  /\ unit_channel (Figma.Color.g (Figma.Paint.color p))
  /\ unit_channel (Figma.Color.b (Figma.Paint.color p))
  /\ Figma.Color.a (Figma.Paint.color p) = 1%Z.

(** The character every tag begins with. *)
Definition tag_opener : string := "<".

(** A sequence of ids that never repeats: the [k]-th id is [id-k]. *)
Definition numbered_ids (k : nat) : string :=
  "id-" ++ JS.Integer_toString (Z.of_nat k).

(** A second sample component and a design of two components. *)
Definition features : ExportComponent.t :=
  {| ExportComponent.id := "comp-2";
     ExportComponent.type := "features";
     ExportComponent.title := "Fast & Simple";
     ExportComponent.content := "Build <anything> in minutes";
     ExportComponent.x := 0%float;
     ExportComponent.y := 400%float;
     ExportComponent.width := 100%float;
     ExportComponent.height := 300%float;
     ExportComponent.bgColor := "not-a-color";
     ExportComponent.textColor := "#1f2937";
     ExportComponent.properties := ∅ |}.

Definition landing_page : list ExportComponent.t := [hero; features].

(** * Properties *)

(** ** Characters *)

Ltac each_char c :=
  destruct c as [[] [] [] [] [] [] [] []].

Lemma hex_digit_spec (c : ascii) : hex_digit c = true <-> spec_hex_digit c.
Proof.
  unfold spec_hex_digit. split.
  - each_char c; intros H; try discriminate H; vm_compute; tauto.
  - intros H. vm_compute in H.
    repeat (destruct H as [<- | H]; [reflexivity |]). contradiction.
Qed.

Lemma hex_value_digit (c : ascii) :
  hex_digit c = true ->
  JS.hex_value c = Some (spec_digit_value c) /\ (0 <= spec_digit_value c <= 15)%Z.
Proof.
  each_char c; intros H; try discriminate H; vm_compute; split;
    (reflexivity || (split; discriminate)).
Qed.

Lemma parseInt16_pair (a b : ascii) :
  hex_digit a = true -> hex_digit b = true ->
  JS.parseInt16 (pair_of a b) = Some (spec_channel a b).
Proof.
  intros Ha Hb.
  destruct (hex_value_digit a Ha) as [Ea _], (hex_value_digit b Hb) as [Eb _].
  unfold JS.parseInt16, pair_of, spec_channel. cbn [JS.parse_hex_prefix].
  rewrite Ea, Eb. f_equal; lia.
Qed.

Lemma spec_channel_range (a b : ascii) :
  hex_digit a = true -> hex_digit b = true -> (0 <= spec_channel a b <= 255)%Z.
Proof.
  intros Ha Hb.
  destruct (hex_value_digit a Ha) as [_ Ra], (hex_value_digit b Hb) as [_ Rb].
  unfold spec_channel. lia.
Qed.

(** ** [hexToRgb] *)

Ltac split_digits :=
  repeat match goal with
         | H : Forall _ (_ :: _) |- _ =>
             let Hc := fresh "Hdigit" in
             apply Forall_cons in H as [Hc H]
         end.

Ltac rewrite_digits :=
  repeat match goal with
         | H : hex_digit _ = true |- _ => rewrite H; clear H
         end.

Lemma six_hex_groups_Some (s : string) (g : string * string * string) :
  six_hex_groups s = Some g ->
  exists c1 c2 c3 c4 c5 c6,
    s = String c1 (String c2 (String c3 (String c4 (String c5 (String c6 EmptyString)))))
    /\ g = (pair_of c1 c2, pair_of c3 c4, pair_of c5 c6)
    /\ Forall (fun c => hex_digit c = true) [c1; c2; c3; c4; c5; c6].
Proof.
  unfold six_hex_groups.
  destruct s as [|c1 [|c2 [|c3 [|c4 [|c5 [|c6 [|? ?]]]]]]]; try discriminate.
  destruct (hex_digit c1) eqn:H1, (hex_digit c2) eqn:H2, (hex_digit c3) eqn:H3,
    (hex_digit c4) eqn:H4, (hex_digit c5) eqn:H5, (hex_digit c6) eqn:H6;
    try discriminate.
  intros [= <-]. exists c1, c2, c3, c4, c5, c6.
  repeat split. repeat constructor; assumption.
Qed.

Lemma six_hex_groups_digits (body : string) :
  spec_six_digits body ->
  exists c1 c2 c3 c4 c5 c6,
    body = String c1 (String c2 (String c3 (String c4 (String c5 (String c6 EmptyString)))))
    /\ six_hex_groups body = Some (pair_of c1 c2, pair_of c3 c4, pair_of c5 c6)
    /\ Forall (fun c => hex_digit c = true) [c1; c2; c3; c4; c5; c6].
Proof.
  intros [Hlen Hall].
  destruct body as [|c1 [|c2 [|c3 [|c4 [|c5 [|c6 [|? ?]]]]]]]; try discriminate Hlen.
  assert (Hd : Forall (fun c => hex_digit c = true) [c1; c2; c3; c4; c5; c6]).
  { eapply Forall_impl; [exact Hall |]. intros c Hc. by apply hex_digit_spec. }
  exists c1, c2, c3, c4, c5, c6. split; [reflexivity |]. split; [| exact Hd].
  unfold six_hex_groups. split_digits. by rewrite_digits.
Qed.

Lemma hex_regex_exec_valid (hex : string) (g : string * string * string) :
  hex_regex_exec hex = Some g ->
  exists body, (hex = body \/ hex = String "#" body)
               /\ six_hex_groups body = Some g.
Proof.
  unfold hex_regex_exec. intros H.
  destruct hex as [|c rest]; [exists EmptyString; auto |].
  destruct (Ascii.eqb_spec c "#") as [-> | Hne].
  - destruct (six_hex_groups rest) eqn:E.
    + injection H as <-. exists rest. auto.
    + exists (String "#" rest). auto.
  - exists (String c rest). split; [auto |].
    each_char c; try exact H. contradiction.
Qed.

Lemma hexToRgb_of_groups (hex : string) (c1 c2 c3 c4 c5 c6 : ascii) :
  hex_regex_exec hex = Some (pair_of c1 c2, pair_of c3 c4, pair_of c5 c6) ->
  Forall (fun c => hex_digit c = true) [c1; c2; c3; c4; c5; c6] ->
  hexToRgb hex =
    Rgb.mk (Some (spec_channel c1 c2)) (Some (spec_channel c3 c4))
           (Some (spec_channel c5 c6)).
Proof.
  intros E H. unfold hexToRgb. rewrite E.
  split_digits. rewrite !parseInt16_pair by assumption. reflexivity.
Qed.

Lemma hexToRgb_in_range (hex : string) :
  exists r g b : Z,
    hexToRgb hex = Rgb.mk (Some r) (Some g) (Some b)
    /\ (0 <= r <= 255)%Z /\ (0 <= g <= 255)%Z /\ (0 <= b <= 255)%Z.
Proof.
  destruct (hex_regex_exec hex) as [g|] eqn:E.
  - destruct (hex_regex_exec_valid _ _ E) as (body & _ & Hg).
    destruct (six_hex_groups_Some _ _ Hg) as (c1 & c2 & c3 & c4 & c5 & c6 & _ & -> & Hd).
    rewrite (hexToRgb_of_groups _ _ _ _ _ _ _ E Hd).
    split_digits.
    eexists _, _, _. split; [reflexivity |].
    split; [| split]; by apply spec_channel_range.
  - unfold hexToRgb. rewrite E. exists 0%Z, 0%Z, 0%Z. repeat split; lia.
Qed.

Lemma hexToRgb_valid (body : string) :
  spec_six_digits body ->
  hexToRgb body = spec_channels body
  /\ hexToRgb (String "#" body) = spec_channels body.
Proof.
  intros Hb.
  destruct (six_hex_groups_digits body Hb) as (c1 & c2 & c3 & c4 & c5 & c6 & -> & Hg & Hd).
  split.
  - apply hexToRgb_of_groups; [| exact Hd].
    unfold hex_regex_exec. rewrite <- Hg.
    each_char c1; reflexivity.
  - apply hexToRgb_of_groups; [| exact Hd].
    unfold hex_regex_exec. rewrite Hg. reflexivity.
Qed.

Lemma hexToRgb_invalid (hex : string) :
  ~ spec_valid_hex hex -> hexToRgb hex = black.
Proof.
  intros Hinv. unfold hexToRgb.
  destruct (hex_regex_exec hex) as [g|] eqn:E; [| reflexivity].
  exfalso. apply Hinv.
  destruct (hex_regex_exec_valid _ _ E) as (body & Hshape & Hg).
  exists body. split; [exact Hshape |].
  destruct (six_hex_groups_Some _ _ Hg) as (c1 & c2 & c3 & c4 & c5 & c6 & -> & _ & Hd).
  split; [reflexivity |].
  eapply Forall_impl; [exact Hd |]. intros c Hc. by apply hex_digit_spec.
Qed.

(** C2.  [hexToRgb] is total and every channel it returns is an integer of
    [0, 255]; six hexadecimal digits, with or without a leading [#] and in
    either case, decode to the channels they denote, so that [#3B82F6]
    gives 59, 130, 246; every other string decodes to 0, 0, 0. *)
Theorem hexToRgb_total_exact_lenient (hex : string) :
  (exists r g b : Z,
      hexToRgb hex = Rgb.mk (Some r) (Some g) (Some b)
      /\ (0 <= r <= 255)%Z /\ (0 <= g <= 255)%Z /\ (0 <= b <= 255)%Z)
  /\ (forall body, spec_six_digits body ->
        (hex = body \/ hex = String "#" body) ->
        hexToRgb hex = spec_channels body)
  /\ (~ spec_valid_hex hex -> hexToRgb hex = black)
  /\ hexToRgb "#3B82F6" = Rgb.mk (Some 59%Z) (Some 130%Z) (Some 246%Z).
Proof.
  split; [apply hexToRgb_in_range |].
  split; [| split; [apply hexToRgb_invalid | reflexivity]].
  intros body Hb [-> | ->]; by apply hexToRgb_valid.
Qed.

(** ** Strings *)

Lemma append_cons (x : ascii) (a b : string) :
  String x a ++ b = String x (a ++ b).
Proof. reflexivity. Qed.

Lemma string_app_assoc (a b c : string) : (a ++ b) ++ c = a ++ b ++ c.
Proof.
  induction a as [|x a IH]; [reflexivity |].
  by rewrite !append_cons, IH.
Qed.

Lemma string_app_empty (a : string) : a ++ EmptyString = a.
Proof.
  induction a as [|x a IH]; [reflexivity |].
  by rewrite append_cons, IH.
Qed.

Lemma lacks_app (c : ascii) (s t : string) :
  lacks c (s ++ t) = lacks c s && lacks c t.
Proof.
  induction s as [|x s IH]; [reflexivity |].
  rewrite append_cons. cbn [lacks]. by rewrite IH, andb_assoc.
Qed.

Lemma lacks_not_In (c : ascii) (s : string) :
  lacks c s = true <-> ~ In c (chars s).
Proof.
  induction s as [|x s IH]; cbn.
  - tauto.
  - rewrite andb_true_iff, negb_true_iff, IH.
    destruct (Ascii.eqb_spec x c); intuition congruence.
Qed.

Lemma contains_refl (s : string) : contains s s.
Proof.
  exists EmptyString, EmptyString.
  change (s = s ++ EmptyString). by rewrite string_app_empty.
Qed.

Lemma contains_app_r (a s p : string) : contains s p -> contains (a ++ s) p.
Proof.
  intros (before & after & ->). exists (a ++ before), after.
  by rewrite string_app_assoc.
Qed.

Lemma contains_app_l (s a p : string) : contains s p -> contains (s ++ a) p.
Proof.
  intros (before & after & ->). exists before, (after ++ a).
  by rewrite !string_app_assoc.
Qed.

Lemma contains_trans (s p q : string) : contains s p -> contains p q -> contains s q.
Proof.
  intros (b1 & a1 & ->) H. by apply contains_app_r, contains_app_l.
Qed.

Lemma contains_join (sep x : string) (l : list string) :
  In x l -> contains (JS.join sep l) x.
Proof.
  unfold JS.join. induction l as [|y l IH]; [intros [] |].
  intros [-> | Hin].
  - destruct l; cbn; [apply contains_refl | apply contains_app_l, contains_refl].
  - destruct l as [|z l]; [destruct Hin |].
    change (contains (y ++ sep ++ String.concat sep (z :: l)) x).
    by apply contains_app_r, contains_app_r, IH.
Qed.

(** An occurrence of [p] starts with the first character of [p]. *)
Lemma starts_with_first (c x : ascii) (p s : string) :
  x <> c -> starts_with (String c p) (String x s) = false.
Proof. intros H. cbn. destruct (Ascii.eqb_spec c x); [congruence | reflexivity]. Qed.

Lemma occurrences_lacks (c : ascii) (p a b : string) :
  lacks c a = true ->
  occurrences (String c p) (a ++ b) = occurrences (String c p) b.
Proof.
  induction a as [|x a IH]; [reflexivity |].
  cbn [lacks]. rewrite andb_true_iff, negb_true_iff. intros [Hx Ha].
  rewrite append_cons.
  cbn [occurrences]. rewrite starts_with_first, IH; [reflexivity | assumption |].
  by apply Ascii.eqb_neq.
Qed.

Lemma starts_with_app (p u t : string) :
  starts_with u p && Nat.ltb (String.length u) (String.length p) = false ->
  starts_with p (u ++ t) = starts_with p u.
Proof.
  revert u. induction p as [|a p IH]; intros u H; [reflexivity |].
  destruct u as [|b u]; [discriminate H |].
  rewrite append_cons. cbn in H |- *.
  rewrite (Ascii.eqb_sym b a) in H.
  destruct (Ascii.eqb a b); [| reflexivity].
  apply IH. exact H.
Qed.

Lemma occurrences_literal (p lit t : string) :
  no_partial p lit = true ->
  occurrences p (lit ++ t) = occurrences p lit + occurrences p t.
Proof.
  induction lit as [|x lit IH]; [reflexivity |].
  cbn [no_partial]. rewrite andb_true_iff, negb_true_iff. intros [Hx Hl].
  rewrite append_cons.
  cbn [occurrences]. rewrite IH by assumption.
  rewrite <- append_cons.
  rewrite (starts_with_app p (String x lit) t Hx). lia.
Qed.

(** ** [escapeHtml] *)

Lemma escape_replacer (c : ascii) :
  (if escape_class c
   then JS.to_string (JS.get escape_map (String c EmptyString))
   else String c EmptyString) = entity c.
Proof. each_char c; reflexivity. Qed.

Lemma escapeHtml_cons (c : ascii) (s : string) :
  escapeHtml (String c s) = entity c ++ escapeHtml s.
Proof. unfold escapeHtml. cbn [JS.replace_class]. by rewrite escape_replacer. Qed.

Lemma escapeHtml_app (s t : string) :
  escapeHtml (s ++ t) = escapeHtml s ++ escapeHtml t.
Proof.
  induction s as [|c s IH]; [reflexivity |].
  by rewrite append_cons, !escapeHtml_cons, IH, string_app_assoc.
Qed.

Lemma escapeHtml_entities (s : string) :
  escapeHtml s = String.concat "" (map entity (chars s)).
Proof.
  induction s as [|c s IH]; [reflexivity |].
  rewrite escapeHtml_cons, IH. cbn [chars list_ascii_of_string map].
  fold (chars s). destruct (map entity (chars s)); cbn; [| reflexivity].
  apply string_app_empty.
Qed.

Lemma entity_lacks (c : ascii) :
  lacks "<" (entity c) = true /\ lacks ">" (entity c) = true
  /\ lacks JS.dquote (entity c) = true /\ lacks "'" (entity c) = true.
Proof. each_char c; repeat split; reflexivity. Qed.

Lemma escapeHtml_lacks (s : string) :
  lacks "<" (escapeHtml s) = true /\ lacks ">" (escapeHtml s) = true
  /\ lacks JS.dquote (escapeHtml s) = true /\ lacks "'" (escapeHtml s) = true.
Proof.
  induction s as [|c s (H1 & H2 & H3 & H4)]; [repeat split; reflexivity |].
  rewrite escapeHtml_cons, !lacks_app, H1, H2, H3, H4.
  destruct (entity_lacks c) as (-> & -> & -> & ->). repeat split; reflexivity.
Qed.

Lemma entity_ampersands (c : ascii) (t : string) :
  occurrences "&" (entity c ++ t)
  = (if escape_class c then 1 else 0) + occurrences "&" t.
Proof. each_char c; reflexivity. Qed.

Lemma escapeHtml_ampersands (s : string) :
  occurrences "&" (escapeHtml s) = length (List.filter escape_class (chars s)).
Proof.
  induction s as [|c s IH]; [reflexivity |].
  rewrite escapeHtml_cons, entity_ampersands, IH.
  cbn [chars list_ascii_of_string List.filter]. fold (chars s).
  by destruct (escape_class c).
Qed.

Lemma entity_plain (c : ascii) : ~ significant c -> entity c = String c EmptyString.
Proof.
  unfold significant. intros H.
  each_char c; try reflexivity; exfalso; apply H; vm_compute; tauto.
Qed.

Lemma escapeHtml_plain (s : string) :
  (forall c, In c (chars s) -> ~ significant c) -> escapeHtml s = s.
Proof.
  induction s as [|c s IH]; [reflexivity |].
  intros H. rewrite escapeHtml_cons, entity_plain, IH; [reflexivity | |].
  - intros x Hx. apply H. by right.
  - apply H. by left.
Qed.

(** C3.  [escapeHtml] replaces each of the five characters by its entity
    in one pass and leaves every other character alone: the result is the
    concatenation of the entities of the characters of the text, so it
    distributes over concatenation, holds no [<] and no [>], holds exactly
    one ampersand per replaced character (an ampersand it wrote is not
    escaped again), and is the text itself when none of the five
    characters occurs in it. *)
Theorem escapeHtml_single_pass (text : string) :
  escapeHtml text = String.concat "" (map entity (chars text))
  /\ (forall before after, text = before ++ after ->
        escapeHtml text = escapeHtml before ++ escapeHtml after)
  /\ lacks "<" (escapeHtml text) = true
  /\ lacks ">" (escapeHtml text) = true
  /\ occurrences "&" (escapeHtml text)
     = length (List.filter escape_class (chars text))
  /\ ((forall c, In c (chars text) -> ~ significant c) -> escapeHtml text = text).
Proof.
  split; [apply escapeHtml_entities |].
  split; [intros before after ->; apply escapeHtml_app |].
  destruct (escapeHtml_lacks text) as (H1 & H2 & _).
  split; [exact H1 |]. split; [exact H2 |].
  split; [apply escapeHtml_ampersands | apply escapeHtml_plain].
Qed.

(** ** The effect monad *)

Lemma run_bind {A B} (c : M A) (k : A -> M B) (w : World.t) :
  run (bind c k) w = run (k (fst (c w))) (snd (c w)).
Proof. unfold run, bind. by destruct (c w). Qed.

Lemma mapM_length {A B} (f : A -> M B) (l : list A) (w : World.t) :
  length (fst (mapM f l w)) = length l.
Proof.
  revert w. induction l as [|a l IH]; intros w; [reflexivity |].
  cbn [mapM]. unfold bind, ret. destruct (f a w) as [b w'].
  specialize (IH w'). destruct (mapM f l w') as [bs w'']. cbn in *. by rewrite IH.
Qed.


(** A view of the results that does not depend on the world for one
    element does not depend on it for the list. *)
Lemma mapM_blank {A B C} (f : A -> M B) (g : B -> C) :
  (forall a w1 w2, g (fst (f a w1)) = g (fst (f a w2))) ->
  forall (l : list A) (w1 w2 : World.t),
    map g (fst (mapM f l w1)) = map g (fst (mapM f l w2)).
Proof.
  intros Hg l. induction l as [|x l IH]; intros w1 w2; [reflexivity |].
  cbn [mapM]. unfold bind, ret.
  pose proof (Hg x w1 w2) as Hx.
  destruct (f x w1) as [b1 w1'], (f x w2) as [b2 w2'].
  specialize (IH w1' w2').
  destruct (mapM f l w1') as [bs1 ?], (mapM f l w2') as [bs2 ?].
  cbn in *. by rewrite Hx, IH.
Qed.

(** ** The Framer adapter *)

Lemma framerConfig_run (components : list ExportComponent.t)
    (designTokens : DesignTokens.t) (projectName : string) (w : World.t) :
  run (framerConfig components designTokens projectName) w =
  {| Framer.Config.version := "1.0.0";
     Framer.Config.name := projectName;
     Framer.Config.metadata :=
       {| Framer.Metadata.exportedAt := World.clock_values w (World.clock_reads w);
          Framer.Metadata.format := "framer" |};
     Framer.Config.designTokens := designTokens;
     Framer.Config.components := map framer_component components;
     Framer.Config.frames :=
       [ {| Framer.Frame.id := "frame-1";
            Framer.Frame.name := "Main Frame";
            Framer.Frame.width := 1440;
            Framer.Frame.height := Z.of_nat (length components) * 400;
            Framer.Frame.children := map ExportComponent.id components |} ] |}.
Proof. reflexivity. Qed.

(** C6.  The Framer payload has exactly one frame; it is 1440 wide, its
    height is 400 times the number of components, and its children are the
    ids of the components in input order.  For no component the height is 0
    and there is no child. *)
Theorem framer_single_frame (components : list ExportComponent.t)
    (designTokens : DesignTokens.t) (projectName : string) (w : World.t) :
  (exists frame,
      Framer.Config.frames (run (framerConfig components designTokens projectName) w)
      = [frame]
      /\ Framer.Frame.width frame = 1440%Z
      /\ Framer.Frame.height frame = (400 * Z.of_nat (length components))%Z
      /\ Framer.Frame.children frame = map ExportComponent.id components)
  /\ map (fun frame => (Framer.Frame.height frame, Framer.Frame.children frame))
       (Framer.Config.frames (run (framerConfig [] designTokens projectName) w))
     = [(0%Z, [])].
Proof.
  rewrite !framerConfig_run. split; [| reflexivity].
  eexists. split; [reflexivity |]. cbn. repeat split. lia.
Qed.

Lemma framer_components_lookup (components : list ExportComponent.t)
    (designTokens : DesignTokens.t) (projectName : string) (w : World.t)
    (i : nat) (comp : ExportComponent.t) :
  components !! i = Some comp ->
  Framer.Config.components (run (framerConfig components designTokens projectName) w) !! i
  = Some (framer_component comp).
Proof.
  intros Hi. rewrite framerConfig_run. cbn.
  by rewrite list_lookup_fmap, Hi.
Qed.

(** The value an explicit field of the props object is given. *)
Lemma framer_explicit_lookup (comp : ExportComponent.t) (key : string) :
  framer_explicit_props comp !! key = explicit_field comp key.
Proof.
  unfold framer_explicit_props, explicit_field.
  repeat (rewrite lookup_insert; case_decide;
          [ subst key; reflexivity
          | match goal with
            | |- _ = (if String.eqb ?k _ then _ else _) =>
                destruct (String.eqb_spec k key); [congruence |]
            end ]).
  apply lookup_empty.
Qed.

(** C7.  The props of the descriptor of a component are its explicit
    fields merged with its properties, the properties last: a key of the
    properties carries the value the properties give it, also when it is
    the name of an explicit field such as [width]; any other key carries
    the explicit field of that name, if there is one. *)
Theorem framer_props_properties_win (components : list ExportComponent.t)
    (designTokens : DesignTokens.t) (projectName : string) (w : World.t)
    (i : nat) (comp : ExportComponent.t) :
  components !! i = Some comp ->
  exists descriptor,
    Framer.Config.components (run (framerConfig components designTokens projectName) w) !! i
    = Some descriptor
    /\ (forall key value,
          ExportComponent.properties comp !! key = Some value ->
          Framer.Component.props descriptor !! key = Some value)
    /\ (forall key,
          ExportComponent.properties comp !! key = None ->
          Framer.Component.props descriptor !! key = explicit_field comp key).
Proof.
  intros Hi. exists (framer_component comp).
  split; [by apply framer_components_lookup |].
  unfold framer_component, spread. cbn. split.
  - intros key value Hk. by apply lookup_union_Some_l.
  - intros key Hk. rewrite lookup_union_r by exact Hk.
    apply framer_explicit_lookup.
Qed.

(** ** The Figma adapter *)

Lemma figmaDocument_canvas (components : list ExportComponent.t)
    (designTokens : DesignTokens.t) (projectName : string) (w : World.t) :
  Figma.Document.children
    (Figma.File.document (run (figmaDocument components designTokens projectName) w))
  = [ {| Figma.Canvas.id := "1:0";
         Figma.Canvas.name := "Page 1";
         Figma.Canvas.type := "CANVAS";
         Figma.Canvas.children := imap figma_frame components |} ].
Proof.
  unfold figmaDocument. rewrite run_bind. reflexivity.
Qed.

Lemma figmaDocument_styles (components : list ExportComponent.t)
    (designTokens : DesignTokens.t) (projectName : string) (w : World.t) :
  Figma.File.styles (run (figmaDocument components designTokens projectName) w)
  = fst (mapM figma_style (or_empty (DesignTokens.colors designTokens)) w).
Proof.
  unfold figmaDocument. rewrite run_bind. reflexivity.
Qed.

(** C5.  The canvas of the Figma payload has one child per component, in
    input order.  The child of a component is a node of type FRAME at the
    component's [(x, y)], whose width and height are the component's
    width and height times ten, the product being the one of JavaScript
    numbers, and whose only child is a node of type TEXT whose characters
    are the component's content as it is.  A component 100 wide and 400
    high gives a frame 1000 wide and 4000 high. *)
Theorem figma_frame_per_component (components : list ExportComponent.t)
    (designTokens : DesignTokens.t) (projectName : string) (w : World.t)
    (i : nat) (comp : ExportComponent.t) :
  components !! i = Some comp ->
  exists canvas frame text,
    Figma.Document.children
      (Figma.File.document (run (figmaDocument components designTokens projectName) w))
    = [canvas]
    /\ length (Figma.Canvas.children canvas) = length components
    /\ Figma.Canvas.children canvas !! i = Some frame
    /\ Figma.Frame.type frame = "FRAME"
    /\ Figma.Frame.x frame = ExportComponent.x comp
    /\ Figma.Frame.y frame = ExportComponent.y comp
    /\ Figma.Frame.width frame = (ExportComponent.width comp * 10)%float
    /\ Figma.Frame.height frame = (ExportComponent.height comp * 10)%float
    /\ (ExportComponent.width comp = 100%float ->
        ExportComponent.height comp = 400%float ->
        Figma.Frame.width frame = 1000%float
        /\ Figma.Frame.height frame = 4000%float)
    /\ Figma.Frame.children frame = [text]
    /\ Figma.Text.type text = "TEXT"
    /\ Figma.Text.characters text = ExportComponent.content comp.
Proof.
  intros Hi. rewrite figmaDocument_canvas.
  eexists _, (figma_frame i comp), (figma_text i comp).
  split; [reflexivity |]. cbn [Figma.Canvas.children].
  split; [apply length_imap |].
  split; [by rewrite list_lookup_imap, Hi |].
  unfold figma_frame, figma_text.
  cbn [Figma.Frame.type Figma.Frame.x Figma.Frame.y Figma.Frame.width
       Figma.Frame.height Figma.Frame.children Figma.Text.type
       Figma.Text.characters].
  do 5 (split; [reflexivity |]).
  split; [intros -> ->; by split |].
  by repeat split.
Qed.

(** ** The Webflow adapter *)

(** The world in which the nodes of the page are built: three ids and seven
    clock readings have been drawn for the site and the page. *)
Lemma webflowSite_pages (components : list ExportComponent.t)
    (designTokens : DesignTokens.t) (projectName : string) (w : World.t) :
  exists w' page,
    Webflow.Site.pages (run (webflowSite components designTokens projectName) w) = [page]
    /\ Webflow.Page.name page = "Home"
    /\ Webflow.Page.slug page = "index"
    /\ Webflow.Page.children page = fst (mapM webflow_node components w').
Proof.
  unfold webflowSite, run, bind, ret, nanoid, Date_toISOString. cbn.
  match goal with |- context [mapM webflow_node components ?w0] => exists w0 end.
  destruct (mapM webflow_node components _) as [nodes w'].
  eexists. cbn. repeat split.
Qed.

Lemma webflowSite_globalStyles (components : list ExportComponent.t)
    (designTokens : DesignTokens.t) (projectName : string) (w : World.t) :
  Webflow.Site.globalStyles (run (webflowSite components designTokens projectName) w)
  = {| Webflow.GlobalStyles.colors := or_empty (DesignTokens.colors designTokens);
       Webflow.GlobalStyles.typography := or_empty (DesignTokens.typography designTokens);
       Webflow.GlobalStyles.spacing := or_empty (DesignTokens.spacing designTokens) |}.
Proof.
  unfold webflowSite, run, bind, ret, nanoid, Date_toISOString. cbn.
  by destruct (mapM webflow_node components _).
Qed.


Lemma webflow_node_blank (comp : ExportComponent.t) (w1 w2 : World.t) :
  blank_node (fst (webflow_node comp w1)) = blank_node (fst (webflow_node comp w2)).
Proof. reflexivity. Qed.

Lemma webflowSite_blank (components : list ExportComponent.t)
    (designTokens : DesignTokens.t) (projectName : string) (w1 w2 : World.t) :
  blank_webflow (run (webflowSite components designTokens projectName) w1)
  = blank_webflow (run (webflowSite components designTokens projectName) w2).
Proof.
  unfold webflowSite, run, bind, ret, nanoid, Date_toISOString. cbn.
  match goal with
  | |- context [mapM webflow_node components ?wa] =>
      match goal with
      | |- _ = blank_webflow (fst (let (_, _) := mapM webflow_node components ?wb in _)) =>
          pose proof (mapM_blank webflow_node blank_node webflow_node_blank
                        components wa wb) as Hnodes
      end
  end.
  destruct (mapM webflow_node components _) as [nodes1 ?].
  destruct (mapM webflow_node components _) as [nodes2 ?].
  cbn in *. unfold blank_webflow, blank_page. cbn. by rewrite Hnodes.
Qed.

Lemma figma_style_blank (entry : string * string) (w1 w2 : World.t) :
  blank_style (fst (figma_style entry w1)) = blank_style (fst (figma_style entry w2)).
Proof. by destruct entry. Qed.

Lemma figmaDocument_blank (components : list ExportComponent.t)
    (designTokens : DesignTokens.t) (projectName : string) (w1 w2 : World.t) :
  blank_figma (run (figmaDocument components designTokens projectName) w1)
  = blank_figma (run (figmaDocument components designTokens projectName) w2).
Proof.
  unfold blank_figma. rewrite !figmaDocument_styles.
  rewrite (mapM_blank figma_style blank_style figma_style_blank _ w1 w2).
  unfold figmaDocument. rewrite !run_bind. reflexivity.
Qed.

Lemma framerConfig_blank (components : list ExportComponent.t)
    (designTokens : DesignTokens.t) (projectName : string) (w1 w2 : World.t) :
  blank_framer (run (framerConfig components designTokens projectName) w1)
  = blank_framer (run (framerConfig components designTokens projectName) w2).
Proof. by rewrite !framerConfig_run. Qed.

(** ** Storage *)

Lemma storage_drew_id (w : World.t) :
  World.storage_answer (World.drew_id w) = World.storage_answer w
  /\ World.stored (World.drew_id w) = World.stored w.
Proof. by split. Qed.

Lemma storage_read_clock (w : World.t) :
  World.storage_answer (World.read_clock w) = World.storage_answer w
  /\ World.stored (World.read_clock w) = World.stored w.
Proof. by split. Qed.

Lemma stored_wrote (key : string) (data : Payload) (contentType : string)
    (w : World.t) :
  World.stored (World.wrote key data contentType w)
  = (World.stored w ++ [(key, data, contentType)])%list.
Proof. reflexivity. Qed.

Ltac same_storage :=
  repeat first
    [ rewrite (proj1 (storage_drew_id _)) in *
    | rewrite (proj2 (storage_drew_id _)) in *
    | rewrite (proj1 (storage_read_clock _)) in *
    | rewrite (proj2 (storage_read_clock _)) in * ].

Lemma mapM_storage {A B} (f : A -> M B) :
  (forall a w, World.storage_answer (snd (f a w)) = World.storage_answer w
               /\ World.stored (snd (f a w)) = World.stored w) ->
  forall (l : list A) (w : World.t),
    World.storage_answer (snd (mapM f l w)) = World.storage_answer w
    /\ World.stored (snd (mapM f l w)) = World.stored w.
Proof.
  intros Hf l. induction l as [|x l IH]; intros w; [by split |].
  cbn [mapM]. unfold bind, ret. destruct (Hf x w) as [H1 H2].
  destruct (f x w) as [b w']. destruct (IH w') as [H3 H4].
  destruct (mapM f l w') as [bs w'']. cbn in *. split; congruence.
Qed.

Lemma figma_style_storage (entry : string * string) (w : World.t) :
  World.storage_answer (snd (figma_style entry w)) = World.storage_answer w
  /\ World.stored (snd (figma_style entry w)) = World.stored w.
Proof. destruct entry. apply storage_drew_id. Qed.

Lemma webflow_node_storage (comp : ExportComponent.t) (w : World.t) :
  World.storage_answer (snd (webflow_node comp w)) = World.storage_answer w
  /\ World.stored (snd (webflow_node comp w)) = World.stored w.
Proof. apply storage_drew_id. Qed.

Ltac answer_of w key :=
  let url := fresh "url" in
  let E := fresh "E" in
  destruct (World.storage_answer w key) as [url|] eqn:E;
  [| exfalso; match goal with H : accepting w |- _ => exact (H key E) end].

(** An export whose write is accepted stores one object, the payload of
    the adapter, and returns its descriptor. *)
Lemma exportToFramer_stores (components : list ExportComponent.t)
    (designTokens : DesignTokens.t) (projectName : string) (w : World.t) :
  accepting w ->
  exists result key,
    run (exportToFramer components designTokens projectName) w = Some result
    /\ ExportResult.format result = "framer"
    /\ ExportResult.fileName result = projectName ++ "-framer.json"
    /\ ExportResult.fileKey result = key
    /\ World.stored (snd (exportToFramer components designTokens projectName w))
       = (World.stored w
         ++ [(key, FramerJson (run (framerConfig components designTokens projectName) w),
              "application/json")])%list.
Proof.
  intros Hw. unfold exportToFramer, framerConfig, run, bind, ret, nanoid,
    Date_toISOString, storagePut. cbn. same_storage.
  match goal with |- context [World.storage_answer w ?k] => answer_of w k end.
  eexists _, _. cbn. rewrite stored_wrote. same_storage. repeat split.
Qed.

Lemma exportToHTML_stores (components : list ExportComponent.t)
    (designTokens : DesignTokens.t) (projectName : string) (w : World.t) :
  accepting w ->
  exists result key,
    run (exportToHTML components designTokens projectName) w = Some result
    /\ ExportResult.format result = "html"
    /\ ExportResult.fileName result = projectName ++ ".html"
    /\ ExportResult.fileKey result = key
    /\ World.stored (snd (exportToHTML components designTokens projectName w))
       = (World.stored w
         ++ [(key, HtmlText (htmlContent components designTokens projectName),
              "text/html")])%list.
Proof.
  intros Hw. unfold exportToHTML, run, bind, ret, nanoid, storagePut. cbn.
  same_storage.
  match goal with |- context [World.storage_answer w ?k] => answer_of w k end.
  eexists _, _. cbn. rewrite stored_wrote. same_storage. repeat split.
Qed.

Lemma exportToFigma_stores (components : list ExportComponent.t)
    (designTokens : DesignTokens.t) (projectName : string) (w : World.t) :
  accepting w ->
  exists result key,
    run (exportToFigma components designTokens projectName) w = Some result
    /\ ExportResult.format result = "figma"
    /\ ExportResult.fileName result = projectName ++ "-figma.json"
    /\ ExportResult.fileKey result = key
    /\ World.stored (snd (exportToFigma components designTokens projectName w))
       = (World.stored w
         ++ [(key, FigmaJson (run (figmaDocument components designTokens projectName) w),
              "application/json")])%list.
Proof.
  intros Hw. unfold exportToFigma, figmaDocument, run, bind, ret, nanoid, storagePut.
  destruct (mapM_storage figma_style figma_style_storage
              (or_empty (DesignTokens.colors designTokens)) w) as [Ha Hs].
  destruct (mapM figma_style _ w) as [styles w']. cbn in *. same_storage.
  rewrite Ha.
  match goal with |- context [World.storage_answer w ?k] => answer_of w k end.
  eexists _, _. cbn. rewrite stored_wrote. same_storage. rewrite Hs. repeat split.
Qed.

Lemma exportToWebflow_stores (components : list ExportComponent.t)
    (designTokens : DesignTokens.t) (projectName : string) (w : World.t) :
  accepting w ->
  exists result key,
    run (exportToWebflow components designTokens projectName) w = Some result
    /\ ExportResult.format result = "webflow"
    /\ ExportResult.fileName result = projectName ++ "-webflow.json"
    /\ ExportResult.fileKey result = key
    /\ World.stored (snd (exportToWebflow components designTokens projectName w))
       = (World.stored w
         ++ [(key, WebflowJson (run (webflowSite components designTokens projectName) w),
              "application/json")])%list.
Proof.
  intros Hw. unfold exportToWebflow, webflowSite, run, bind, ret, nanoid,
    Date_toISOString, storagePut. cbn.
  match goal with
  | |- context [mapM webflow_node components ?w0] =>
      destruct (mapM_storage webflow_node webflow_node_storage components w0) as [Ha Hs]
  end.
  destruct (mapM webflow_node components _) as [nodes w']. cbn in *. same_storage.
  rewrite Ha.
  match goal with |- context [World.storage_answer w ?k] => answer_of w k end.
  eexists _, _. cbn. rewrite stored_wrote. same_storage. rewrite Hs. repeat split.
Qed.

(** ** The HTML adapter *)

Lemma string_of_uint_lacks (d : Decimal.uint) :
  lacks "<" (NilEmpty.string_of_uint d) = true.
Proof. induction d; cbn; auto. Qed.

Lemma decimal_lacks (n : Z) : lacks "<" (JS.decimal n) = true.
Proof.
  unfold JS.decimal. destruct (Z.to_int n); cbn;
    apply string_of_uint_lacks.
Qed.

Lemma zeros_lacks (n : nat) : lacks "<" (JS.zeros n) = true.
Proof. induction n; cbn; auto. Qed.

Lemma take_lacks (c : ascii) (n : nat) (s : string) :
  lacks c s = true -> lacks c (JS.take n s) = true.
Proof.
  revert s. induction n as [|n IH]; intros [|x s]; cbn; try reflexivity.
  intros [Hx Hs]%andb_prop. by rewrite Hx, IH.
Qed.

Lemma drop_lacks (c : ascii) (n : nat) (s : string) :
  lacks c s = true -> lacks c (JS.drop n s) = true.
Proof.
  revert s. induction n as [|n IH]; intros [|x s]; cbn; try done.
  intros [Hx Hs]%andb_prop. by apply IH.
Qed.

Lemma layout_lacks (k s n : Z) : lacks "<" (JS.layout k s n) = true.
Proof.
  unfold JS.layout.
  repeat match goal with
         | |- context [if ?b then _ else _] => destruct b
         end;
    rewrite ?lacks_app, ?zeros_lacks, ?decimal_lacks,
      ?(take_lacks _ _ _ (decimal_lacks _)), ?(drop_lacks _ _ _ (decimal_lacks _));
    reflexivity.
Qed.

Lemma print_finite_lacks (m e : Z) : lacks "<" (JS.print_finite m e) = true.
Proof.
  unfold JS.print_finite.
  destruct (JS.shortest _ _ _ _ _ _) as [[k s] n]. apply layout_lacks.
Qed.

Lemma Number_toString_lacks (x : JS.number) :
  lacks "<" (JS.Number_toString x) = true.
Proof.
  unfold JS.Number_toString.
  destruct (FloatOps.Prim2SF x) as [negative|negative| |negative m e];
    try reflexivity.
  - by destruct negative.
  - rewrite lacks_app, print_finite_lacks. by destruct negative.
Qed.

Lemma toLowerCase_lacks (s : string) :
  lacks "<" (JS.toLowerCase s) = lacks "<" s.
Proof.
  induction s as [|x s IH]; [reflexivity |].
  cbn [JS.toLowerCase lacks]. rewrite IH. f_equal.
  each_char x; reflexivity.
Qed.

Lemma join_lacks (c : ascii) (sep : string) (l : list string) :
  lacks c sep = true -> Forall (fun s => lacks c s = true) l ->
  lacks c (JS.join sep l) = true.
Proof.
  intros Hsep. unfold JS.join. induction l as [|x l IH]; [reflexivity |].
  intros H. apply Forall_cons in H as [Hx Hl].
  destruct l as [|y l]; [exact Hx |].
  change (lacks c (x ++ sep ++ String.concat sep (y :: l)) = true).
  by rewrite !lacks_app, Hx, Hsep, IH.
Qed.

Lemma cssVariables_lacks (designTokens : DesignTokens.t) :
  plain_tokens designTokens -> lacks "<" (cssVariables designTokens) = true.
Proof.
  unfold plain_tokens, cssVariables. intros H.
  apply join_lacks; [reflexivity |].
  apply Forall_fmap. eapply Forall_impl; [exact H |].
  intros [name color] [Hn Hc]. unfold markup_free in *. cbn in *.
  by rewrite !lacks_app, toLowerCase_lacks, Hn, Hc.
Qed.

(** Counts the occurrences of a pattern in the chunk that heads a
    concatenation: a literal by evaluation, an interpolated value by its
    lacking the first character of the pattern. *)
Lemma occurrences_chunk (p lit t : string) (n : nat) :
  occurrences p lit = n -> no_partial p lit = true ->
  occurrences p (lit ++ t) = n + occurrences p t.
Proof. intros <- H. by apply occurrences_literal. Qed.

Ltac closed_chunk a :=
  lazymatch a with
  | String _ _ => idtac
  | EmptyString => idtac
  | _ => is_const a
  end.

Ltac count_chunks :=
  repeat match goal with
    | |- context [occurrences _ (JS.Number_toString ?x ++ _)] =>
        rewrite (occurrences_lacks _ _ (JS.Number_toString x))
          by apply Number_toString_lacks
    | |- context [occurrences _ (escapeHtml ?x ++ _)] =>
        rewrite (occurrences_lacks _ _ (escapeHtml x)) by apply escapeHtml_lacks
    | |- context [occurrences _ (cssVariables ?x ++ _)] =>
        rewrite (occurrences_lacks _ _ (cssVariables x))
          by (by apply cssVariables_lacks)
    | H : lacks _ ?a = true |- context [occurrences _ (?a ++ _)] =>
        rewrite (occurrences_lacks _ _ a) by exact H
    | |- context [occurrences _ (?a ++ _)] =>
        closed_chunk a;
        erewrite (occurrences_chunk _ a);
        [ | vm_compute; reflexivity | vm_compute; reflexivity ]
    end.

Lemma section_html_occurrences (comp : ExportComponent.t) (t : string) :
  plain_component comp ->
  occurrences section_tag (section_html comp ++ t) = 1 + occurrences section_tag t.
Proof.
  intros (Htype & Hbg & Hfg). unfold markup_free in *.
  unfold section_html, section_open, section_style, section_tag.
  rewrite !string_app_assoc. count_chunks. reflexivity.
Qed.

Lemma componentsHTML_occurrences (components : list ExportComponent.t) (t : string) :
  Forall plain_component components ->
  occurrences section_tag (componentsHTML components ++ t)
  = length components + occurrences section_tag t.
Proof.
  unfold componentsHTML, JS.join.
  induction components as [|x l IH]; [reflexivity |].
  intros H. apply Forall_cons in H as [Hx Hl].
  destruct l as [|y l].
  - by apply section_html_occurrences.
  - change (occurrences section_tag
              ((section_html x ++ JS.NL
                ++ String.concat JS.NL (map section_html (y :: l))) ++ t)
            = S (length (y :: l)) + occurrences section_tag t).
    rewrite !string_app_assoc, section_html_occurrences by exact Hx.
    unfold section_tag at 1. count_chunks. fold section_tag.
    by rewrite IH.
Qed.

Lemma htmlContent_occurrences (components : list ExportComponent.t)
    (designTokens : DesignTokens.t) (projectName : string) :
  Forall plain_component components -> plain_tokens designTokens ->
  occurrences section_tag (htmlContent components designTokens projectName)
  = length components.
Proof.
  intros Hc Ht. unfold htmlContent, html_template, section_tag.
  count_chunks. fold section_tag.
  rewrite componentsHTML_occurrences by exact Hc.
  unfold section_tag. vm_compute (occurrences _ html_tail). lia.
Qed.




Lemma htmlContent_contains_section (components : list ExportComponent.t)
    (designTokens : DesignTokens.t) (projectName : string)
    (comp : ExportComponent.t) :
  In comp components ->
  contains (htmlContent components designTokens projectName) (section_html comp).
Proof.
  intros Hin. unfold htmlContent, html_template.
  do 5 apply contains_app_r. apply contains_app_l.
  apply contains_join. by apply in_map.
Qed.


(** ** The class attribute of a section *)


















Lemma breakout_classes :
  section_classes (htmlContent [breakout] DesignTokens.none "Test Project")
  = [["component"; "component-x"]; ["y"]].
Proof. vm_compute. reflexivity. Qed.


Lemma starts_with_split (r R : string) :
  starts_with r R = true -> exists rest, R = r ++ rest.
Proof.
  revert R. induction r as [|a r IH]; intros R H; [by exists R |].
  destruct R as [|b R]; [discriminate H |].
  cbn in H. apply andb_true_iff in H as [Hab HrR].
  apply Ascii.eqb_eq in Hab as ->. destruct (IH R HrR) as [rest ->].
  by exists rest.
Qed.

(** A value interpolated between two literals is found in the result
    together with the end of the first and the start of the second. *)
Lemma contains_between (L X R T l r : string) :
  (exists l', L = l' ++ l) -> starts_with r R = true ->
  contains (L ++ X ++ R ++ T) (l ++ X ++ r).
Proof.
  intros [l' ->] Hr. destruct (starts_with_split r R Hr) as [r' ->].
  exists l', (r' ++ T). by rewrite !string_app_assoc.
Qed.

Ltac literal_end :=
  match goal with
  | |- exists l', ?L = l' ++ ?l =>
      exists (String.substring 0 (String.length L - String.length l) L);
      vm_compute; reflexivity
  end.

Lemma html_title (projectName cssVariables componentsHTML : string) :
  contains (html_template projectName cssVariables componentsHTML)
    ("<title>" ++ escapeHtml projectName ++ "</title>").
Proof.
  unfold html_template. apply contains_between; [literal_end | reflexivity].
Qed.

Lemma section_html_heading (comp : ExportComponent.t) :
  contains (section_html comp)
    ("<h2>" ++ escapeHtml (ExportComponent.title comp) ++ "</h2>").
Proof.
  unfold section_html. do 8 apply contains_app_r.
  apply contains_between; [literal_end | reflexivity].
Qed.

Lemma section_html_paragraph (comp : ExportComponent.t) :
  contains (section_html comp)
    ("<p>" ++ escapeHtml (ExportComponent.content comp) ++ "</p>").
Proof.
  unfold section_html. do 10 apply contains_app_r.
  match goal with
  | |- contains (?L ++ ?X ++ ?R) _ => rewrite <- (string_app_empty R)
  end.
  apply contains_between; [literal_end | reflexivity].
Qed.

Lemma section_html_attributes (comp : ExportComponent.t) :
  contains (section_html comp)
    ("<section class=" ++ JS.DQ ++ "component component-"
     ++ ExportComponent.type comp ++ JS.DQ
     ++ " style=" ++ JS.DQ
     ++ "background-color: " ++ ExportComponent.bgColor comp
     ++ "; color: " ++ ExportComponent.textColor comp
     ++ "; width: " ++ JS.Number_toString (ExportComponent.width comp)
     ++ "%; height: " ++ JS.Number_toString (ExportComponent.height comp)
     ++ "px;" ++ JS.DQ ++ ">").
Proof.
  exists (JS.NL ++ "  "),
    (JS.NL ++ "    <div class=" ++ JS.DQ ++ "component-content" ++ JS.DQ ++ ">"
     ++ JS.NL ++ "      <h2>" ++ escapeHtml (ExportComponent.title comp) ++ "</h2>"
     ++ JS.NL ++ "      <p>" ++ escapeHtml (ExportComponent.content comp) ++ "</p>"
     ++ JS.NL ++ "    </div>" ++ JS.NL ++ "  </section>" ++ JS.NL).
  unfold section_html, section_open, section_style.
  rewrite !string_app_assoc. reflexivity.
Qed.

(** C10.  The HTML document holds the escaped project name in its title
    and, for a component, its escaped title and its escaped content, while
    it holds the component's type, colours, width and height as they are
    given.  So a type holding a double quote, a [<] and a [>], which
    escaping would change, is found unchanged in the document. *)
Theorem html_escapes_text_only (components : list ExportComponent.t)
    (designTokens : DesignTokens.t) (projectName : string)
    (comp : ExportComponent.t) :
  In comp components ->
  let document := htmlContent components designTokens projectName in
  contains document ("<title>" ++ escapeHtml projectName ++ "</title>")
  /\ contains document ("<h2>" ++ escapeHtml (ExportComponent.title comp) ++ "</h2>")
  /\ contains document ("<p>" ++ escapeHtml (ExportComponent.content comp) ++ "</p>")
  /\ contains document
       ("<section class=" ++ JS.DQ ++ "component component-"
        ++ ExportComponent.type comp ++ JS.DQ
        ++ " style=" ++ JS.DQ
        ++ "background-color: " ++ ExportComponent.bgColor comp
        ++ "; color: " ++ ExportComponent.textColor comp
        ++ "; width: " ++ JS.Number_toString (ExportComponent.width comp)
        ++ "%; height: " ++ JS.Number_toString (ExportComponent.height comp)
        ++ "px;" ++ JS.DQ ++ ">")
  /\ (exists c, significant c /\ In c (chars breakout_type))
  /\ escapeHtml breakout_type <> breakout_type
  /\ contains (htmlContent [breakout] designTokens projectName)
       ("<section class=" ++ JS.DQ ++ "component component-"
        ++ breakout_type ++ JS.DQ).
Proof.
  intros Hin document.
  pose proof (htmlContent_contains_section components designTokens projectName
                comp Hin) as Hsec.
  split; [apply html_title |].
  split; [eapply contains_trans; [exact Hsec | apply section_html_heading] |].
  split; [eapply contains_trans; [exact Hsec | apply section_html_paragraph] |].
  split; [eapply contains_trans; [exact Hsec | apply section_html_attributes] |].
  split; [exists "<"%char; split; [right; by left | vm_compute; tauto] |].
  split; [vm_compute; discriminate |].
  eapply contains_trans.
  - apply (htmlContent_contains_section [breakout]). by left.
  - unfold section_html. apply contains_app_r, contains_app_l, contains_refl.
Qed.

(** ** Degenerate inputs *)

Lemma figmaDocument_empty (designTokens : DesignTokens.t) (projectName : string)
    (w : World.t) :
  Figma.File.document (run (figmaDocument [] designTokens projectName) w)
  = {| Figma.Document.id := "0:0";
       Figma.Document.name := projectName;
       Figma.Document.type := "DOCUMENT";
       Figma.Document.children :=
         [ {| Figma.Canvas.id := "1:0";
              Figma.Canvas.name := "Page 1";
              Figma.Canvas.type := "CANVAS";
              Figma.Canvas.children := [] |} ] |}
  /\ Figma.File.assets (run (figmaDocument [] designTokens projectName) w) = [].
Proof. unfold figmaDocument. rewrite run_bind. by split. Qed.

Lemma html_empty_root (components : list ExportComponent.t) (projectName : string) :
  htmlContent components DesignTokens.none projectName
  = html_head ++ escapeHtml projectName ++ empty_root_block
    ++ JS.drop 6 html_rules ++ componentsHTML components ++ html_tail.
Proof.
  unfold htmlContent, html_template.
  change (cssVariables DesignTokens.none) with EmptyString.
  reflexivity.
Qed.

Lemma html_empty_container (designTokens : DesignTokens.t) (projectName : string) :
  htmlContent [] designTokens projectName
  = (html_head ++ escapeHtml projectName ++ html_root_open
     ++ cssVariables designTokens
     ++ JS.take (String.length html_rules - 24) html_rules)
    ++ empty_container.
Proof.
  unfold htmlContent, html_template.
  change (componentsHTML []) with EmptyString.
  rewrite !string_app_assoc. repeat (apply (f_equal2 String.append); [reflexivity |]).
  vm_compute. reflexivity.
Qed.

Lemma exports_deliver (components : list ExportComponent.t)
    (designTokens : DesignTokens.t) (projectName : string) (w : World.t) :
  accepting w ->
  delivers (exportToFramer components designTokens projectName) w
    "framer" (projectName ++ "-framer.json")
    (FramerJson (run (framerConfig components designTokens projectName) w))
    "application/json"
  /\ delivers (exportToFigma components designTokens projectName) w
       "figma" (projectName ++ "-figma.json")
       (FigmaJson (run (figmaDocument components designTokens projectName) w))
       "application/json"
  /\ delivers (exportToWebflow components designTokens projectName) w
       "webflow" (projectName ++ "-webflow.json")
       (WebflowJson (run (webflowSite components designTokens projectName) w))
       "application/json"
  /\ delivers (exportToHTML components designTokens projectName) w
       "html" (projectName ++ ".html")
       (HtmlText (htmlContent components designTokens projectName))
       "text/html".
Proof.
  intros Hw. unfold delivers.
  destruct (exportToFramer_stores components designTokens projectName w Hw)
    as (r1 & ? & E1 & F1 & N1 & <- & S1).
  destruct (exportToFigma_stores components designTokens projectName w Hw)
    as (r2 & ? & E2 & F2 & N2 & <- & S2).
  destruct (exportToWebflow_stores components designTokens projectName w Hw)
    as (r3 & ? & E3 & F3 & N3 & <- & S3).
  destruct (exportToHTML_stores components designTokens projectName w Hw)
    as (r4 & ? & E4 & F4 & N4 & <- & S4).
  split; [by exists r1 |]. split; [by exists r2 |].
  split; [by exists r3 | by exists r4].
Qed.

(** C9.  Whenever storage accepts the write, each of the four exports of
    a design without any token group returns its result and stores its
    payload, and the token section of each payload is there and empty:
    the Framer configuration holds the empty token object, the Figma file
    no style, the Webflow site three empty groups, and the HTML document
    an empty [:root] block right after its title.  Each of the four
    exports of a design without any component returns its result and
    stores its payload as well: the Framer configuration holds no
    component and one frame of height 0 without children, the Figma file
    its document with one canvas without children, the Webflow site its
    home page without children, and the HTML document ends with an empty
    container and, when no colour token holds a [<], has no section. *)
Theorem degenerate_inputs_export (components : list ExportComponent.t)
    (designTokens : DesignTokens.t) (projectName : string) (w : World.t) :
  accepting w ->
  (exists config file site document,
      delivers (exportToFramer components DesignTokens.none projectName) w
        "framer" (projectName ++ "-framer.json") (FramerJson config)
        "application/json"
      /\ Framer.Config.designTokens config = DesignTokens.none
      /\ length (Framer.Config.components config) = length components
      /\ delivers (exportToFigma components DesignTokens.none projectName) w
           "figma" (projectName ++ "-figma.json") (FigmaJson file)
           "application/json"
      /\ Figma.File.styles file = []
      /\ (exists canvas,
            Figma.Document.children (Figma.File.document file) = [canvas]
            /\ length (Figma.Canvas.children canvas) = length components)
      /\ delivers (exportToWebflow components DesignTokens.none projectName) w
           "webflow" (projectName ++ "-webflow.json") (WebflowJson site)
           "application/json"
      /\ Webflow.Site.globalStyles site = Webflow.GlobalStyles.mk [] [] []
      /\ (exists page,
            Webflow.Site.pages site = [page]
            /\ length (Webflow.Page.children page) = length components)
      /\ delivers (exportToHTML components DesignTokens.none projectName) w
           "html" (projectName ++ ".html") (HtmlText document) "text/html"
      /\ cssVariables DesignTokens.none = EmptyString
      /\ exists rest,
           document
           = html_head ++ escapeHtml projectName ++ empty_root_block ++ rest)
  /\ (exists config file site document,
        delivers (exportToFramer [] designTokens projectName) w
          "framer" (projectName ++ "-framer.json") (FramerJson config)
          "application/json"
        /\ Framer.Config.designTokens config = designTokens
        /\ Framer.Config.components config = []
        /\ Framer.Config.frames config
           = [ {| Framer.Frame.id := "frame-1";
                  Framer.Frame.name := "Main Frame";
                  Framer.Frame.width := 1440;
                  Framer.Frame.height := 0;
                  Framer.Frame.children := [] |} ]
        /\ delivers (exportToFigma [] designTokens projectName) w
             "figma" (projectName ++ "-figma.json") (FigmaJson file)
             "application/json"
        /\ Figma.File.document file
           = {| Figma.Document.id := "0:0";
                Figma.Document.name := projectName;
                Figma.Document.type := "DOCUMENT";
                Figma.Document.children :=
                  [ {| Figma.Canvas.id := "1:0";
                       Figma.Canvas.name := "Page 1";
                       Figma.Canvas.type := "CANVAS";
                       Figma.Canvas.children := [] |} ] |}
        /\ Figma.File.assets file = []
        /\ delivers (exportToWebflow [] designTokens projectName) w
             "webflow" (projectName ++ "-webflow.json") (WebflowJson site)
             "application/json"
        /\ (exists page,
              Webflow.Site.pages site = [page]
              /\ Webflow.Page.name page = "Home"
              /\ Webflow.Page.slug page = "index"
              /\ Webflow.Page.children page = [])
        /\ delivers (exportToHTML [] designTokens projectName) w
             "html" (projectName ++ ".html") (HtmlText document) "text/html"
        /\ componentsHTML [] = EmptyString
        /\ (exists before, document = before ++ empty_container)
        /\ (plain_tokens designTokens -> occurrences section_tag document = 0)).
Proof.
  intros Hw. split.
  - destruct (exports_deliver components DesignTokens.none projectName w Hw)
      as (D1 & D2 & D3 & D4).
    eexists _, _, _, _.
    split; [exact D1 |].
    split; [by rewrite framerConfig_run |].
    split; [rewrite framerConfig_run; apply length_map |].
    split; [exact D2 |].
    split; [by rewrite figmaDocument_styles |].
    split.
    { rewrite figmaDocument_canvas. eexists. split; [reflexivity |].
      apply length_imap. }
    split; [exact D3 |].
    split; [by rewrite webflowSite_globalStyles |].
    split.
    { destruct (webflowSite_pages components DesignTokens.none projectName w)
        as (w' & page & Hp & _ & _ & Hc).
      exists page. split; [exact Hp |]. by rewrite Hc, mapM_length. }
    split; [exact D4 |].
    split; [reflexivity |].
    eexists. apply html_empty_root.
  - destruct (exports_deliver [] designTokens projectName w Hw)
      as (D1 & D2 & D3 & D4).
    destruct (figmaDocument_empty designTokens projectName w) as [Hdoc Hassets].
    eexists _, _, _, _.
    split; [exact D1 |].
    do 3 (split; [by rewrite framerConfig_run |]).
    split; [exact D2 |].
    split; [exact Hdoc |]. split; [exact Hassets |].
    split; [exact D3 |].
    split.
    { destruct (webflowSite_pages [] designTokens projectName w)
        as (w' & page & Hp & Hn & Hs & Hc).
      by exists page. }
    split; [exact D4 |].
    split; [reflexivity |].
    split; [eexists; apply html_empty_container |].
    intros Ht. rewrite htmlContent_occurrences; [reflexivity | constructor | exact Ht].
Qed.

(** ** Dependence on the run *)

Lemma handed_over_last {A} (export : M A) (w : World.t) (log : list (string * Payload * string))
    (key : string) (p : Payload) (contentType : string) :
  World.stored (snd (export w)) = (log ++ [(key, p, contentType)])%list ->
  handed_over export w = Some p.
Proof.
  intros H. unfold handed_over. rewrite H, map_app. cbn. apply last_snoc.
Qed.

(** C1, as the code has it.  Two runs of an export on the same components,
    tokens and project name, both with an accepted write, hand storage
    payloads that are equal once the fields drawn from [nanoid()] or from
    the clock are blanked: no field of the HTML document, the export time
    of the Framer payload, the key of each style of the Figma payload, and
    the ids and dates of the site, page, paragraphs and locale of the
    Webflow payload.  The two results have the same format and file name. *)
Theorem payloads_equal_up_to_generated_fields (components : list ExportComponent.t)
    (designTokens : DesignTokens.t) (projectName : string) (w1 w2 : World.t) :
  accepting w1 -> accepting w2 ->
  (handed_over (exportToHTML components designTokens projectName) w1
   = Some (HtmlText (htmlContent components designTokens projectName))
   /\ handed_over (exportToHTML components designTokens projectName) w2
      = Some (HtmlText (htmlContent components designTokens projectName)))
  /\ (forall export,
        In export [exportToFramer; exportToFigma; exportToWebflow; exportToHTML] ->
        exists p1 p2 r1 r2,
          handed_over (export components designTokens projectName) w1 = Some p1
          /\ handed_over (export components designTokens projectName) w2 = Some p2
          /\ blank_payload p1 = blank_payload p2
          /\ run (export components designTokens projectName) w1 = Some r1
          /\ run (export components designTokens projectName) w2 = Some r2
          /\ ExportResult.format r1 = ExportResult.format r2
          /\ ExportResult.fileName r1 = ExportResult.fileName r2).
Proof.
  intros H1 H2.
  destruct (exportToFramer_stores components designTokens projectName w1 H1)
    as (fr1 & ? & Efr1 & Ffr1 & Nfr1 & _ & Sfr1).
  destruct (exportToFramer_stores components designTokens projectName w2 H2)
    as (fr2 & ? & Efr2 & Ffr2 & Nfr2 & _ & Sfr2).
  destruct (exportToFigma_stores components designTokens projectName w1 H1)
    as (fi1 & ? & Efi1 & Ffi1 & Nfi1 & _ & Sfi1).
  destruct (exportToFigma_stores components designTokens projectName w2 H2)
    as (fi2 & ? & Efi2 & Ffi2 & Nfi2 & _ & Sfi2).
  destruct (exportToWebflow_stores components designTokens projectName w1 H1)
    as (wf1 & ? & Ewf1 & Fwf1 & Nwf1 & _ & Swf1).
  destruct (exportToWebflow_stores components designTokens projectName w2 H2)
    as (wf2 & ? & Ewf2 & Fwf2 & Nwf2 & _ & Swf2).
  destruct (exportToHTML_stores components designTokens projectName w1 H1)
    as (ht1 & ? & Eht1 & Fht1 & Nht1 & _ & Sht1).
  destruct (exportToHTML_stores components designTokens projectName w2 H2)
    as (ht2 & ? & Eht2 & Fht2 & Nht2 & _ & Sht2).
  apply handed_over_last in Sfr1, Sfr2, Sfi1, Sfi2, Swf1, Swf2, Sht1, Sht2.
  split; [by split |].
  intros export [<- | [<- | [<- | [<- | []]]]];
    eexists _, _, _, _;
    (split; [eassumption |]); (split; [eassumption |]);
    (split; [| split; [eassumption | split; [eassumption | split; congruence]]]);
    cbn [blank_payload];
    first [ apply (f_equal FramerJson), framerConfig_blank
          | apply (f_equal FigmaJson), figmaDocument_blank
          | apply (f_equal WebflowJson), webflowSite_blank
          | reflexivity ].
Qed.

(** ** The claims on sample data *)

Lemma fresh_world_accepting (ids clock : nat -> string) :
  accepting (fresh_world ids clock).
Proof. intros key. discriminate. Defined.

(** Against C1 as stated.  Two Webflow exports of the same design that
    draw the same ids, and so write under the same key, hand storage
    different payloads when the clock differs; two Figma exports that
    differ in the first id drawn write under the same key and hand storage
    different payloads. *)
Lemma payloads_vary_beyond_key_and_timestamp :
  (run (exportToWebflow [hero] brand_tokens "Test Project") (fresh_world ids_a at_noon)
   = run (exportToWebflow [hero] brand_tokens "Test Project") (fresh_world ids_a at_midnight)
   /\ handed_over (exportToWebflow [hero] brand_tokens "Test Project")
        (fresh_world ids_a at_noon)
      <> handed_over (exportToWebflow [hero] brand_tokens "Test Project")
           (fresh_world ids_a at_midnight))
  /\ (run (exportToFigma [hero] brand_tokens "Test Project") (fresh_world ids_a at_noon)
      = run (exportToFigma [hero] brand_tokens "Test Project") (fresh_world ids_b at_noon)
      /\ handed_over (exportToFigma [hero] brand_tokens "Test Project")
           (fresh_world ids_a at_noon)
         <> handed_over (exportToFigma [hero] brand_tokens "Test Project")
              (fresh_world ids_b at_noon)).
Proof.
  split; (split; [vm_compute; reflexivity |]); intros H.
  - apply (f_equal (fun p => match p with
                             | Some (WebflowJson site) => Webflow.Site.createdOn site
                             | _ => EmptyString
                             end)) in H.
    vm_compute in H. discriminate H.
  - apply (f_equal (fun p => match p with
                             | Some (FigmaJson file) =>
                                 map Figma.Style.key (Figma.File.styles file)
                             | _ => []
                             end)) in H.
    vm_compute in H. discriminate H.
Qed.



Ltac plain_chars :=
  let c := fresh "c" in
  let Hin := fresh "Hin" in
  intros c Hin; vm_compute in Hin;
  repeat (destruct Hin as [<- | Hin];
          [intros [H | [H | [H | [H | H]]]]; discriminate H |]);
  contradiction.

Lemma hexToRgb_witness :
  hexToRgb "#10B981" = spec_channels "10B981" /\ hexToRgb "#FFF" = black.
Proof.
  destruct (hexToRgb_total_exact_lenient "#10B981") as (_ & Hvalid & _).
  destruct (hexToRgb_total_exact_lenient "#FFF") as (_ & _ & Hinvalid & _).
  split.
  - apply (Hvalid "10B981"); [| by right].
    split; [reflexivity |].
    repeat (apply Forall_cons; split; [apply hex_digit_spec; reflexivity |]).
    constructor.
  - apply Hinvalid. intros (body & [E | E] & [Hlen _]).
    + subst body. discriminate Hlen.
    + injection E as <-. discriminate Hlen.
Defined.

Lemma escapeHtml_witness :
  escapeHtml "Hero Section" = "Hero Section"
  /\ escapeHtml "R&D" = escapeHtml "R" ++ escapeHtml "&D".
Proof.
  destruct (escapeHtml_single_pass "Hero Section") as (_ & _ & _ & _ & _ & Hplain).
  destruct (escapeHtml_single_pass "R&D") as (_ & Happ & _).
  split; [apply Hplain; plain_chars | by apply Happ].
Defined.


Lemma brand_tokens_plain : plain_tokens brand_tokens.
Proof. repeat constructor. Defined.


Lemma figma_frame_witness :
  exists canvas frame,
    Figma.Document.children
      (Figma.File.document
         (run (figmaDocument [hero] brand_tokens "Test Project")
              (fresh_world ids_a at_noon))) = [canvas]
    /\ Figma.Canvas.children canvas !! 0 = Some frame
    /\ Figma.Frame.width frame = 1000%float
    /\ Figma.Frame.height frame = 4000%float.
Proof.
  destruct (figma_frame_per_component [hero] brand_tokens "Test Project"
              (fresh_world ids_a at_noon) 0 hero eq_refl)
    as (canvas & frame & text & Hc & _ & Hf & _ & _ & _ & _ & _ & Hsize & _).
  exists canvas, frame. split; [exact Hc |]. split; [exact Hf |].
  by apply Hsize.
Defined.

Lemma framer_props_witness :
  exists descriptor,
    Framer.Config.components
      (run (framerConfig [hero_with_width_property] brand_tokens "Test Project")
           (fresh_world ids_a at_noon)) !! 0 = Some descriptor
    /\ Framer.Component.props descriptor !! "width" = Some (JStr "50%")
    /\ Framer.Component.props descriptor !! "height" = Some (JNum 400%float).
Proof.
  destruct (framer_props_properties_win [hero_with_width_property] brand_tokens
              "Test Project" (fresh_world ids_a at_noon) 0
              hero_with_width_property eq_refl)
    as (descriptor & Hd & Hwin & Hrest).
  exists descriptor. split; [exact Hd |]. split.
  - apply Hwin. reflexivity.
  - rewrite Hrest; reflexivity.
Defined.



Lemma degenerate_inputs_witness :
  exists document,
    delivers (exportToHTML [] DesignTokens.none "Test Project")
      (fresh_world ids_a at_noon)
      "html" "Test Project.html" (HtmlText document) "text/html"
    /\ exists before, document = before ++ empty_container.
Proof.
  destruct (degenerate_inputs_export [] DesignTokens.none "Test Project"
              (fresh_world ids_a at_noon) (fresh_world_accepting ids_a at_noon))
    as (_ & (_ & _ & _ & document
             & _ & _ & _ & _ & _ & _ & _ & _ & _ & D & _ & C & _)).
  by exists document.
Defined.

Lemma html_escapes_witness :
  contains (htmlContent [hero] brand_tokens "R&D")
    ("<title>" ++ escapeHtml "R&D" ++ "</title>")
  /\ contains (htmlContent [hero] brand_tokens "R&D")
       ("<h2>" ++ escapeHtml "Hero Section" ++ "</h2>").
Proof.
  destruct (html_escapes_text_only [hero] brand_tokens "R&D" hero
              (or_introl eq_refl)) as (Htitle & Hheading & _).
  by split.
Defined.

Lemma payloads_equal_witness :
  exists p1 p2,
    handed_over (exportToWebflow [hero] brand_tokens "Test Project")
      (fresh_world ids_a at_noon) = Some p1
    /\ handed_over (exportToWebflow [hero] brand_tokens "Test Project")
         (fresh_world ids_b at_midnight) = Some p2
    /\ blank_payload p1 = blank_payload p2.
Proof.
  destruct (payloads_equal_up_to_generated_fields [hero] brand_tokens "Test Project"
              (fresh_world ids_a at_noon) (fresh_world ids_b at_midnight)
              (fresh_world_accepting ids_a at_noon)
              (fresh_world_accepting ids_b at_midnight)) as (_ & Hall).
  destruct (Hall exportToWebflow) as (p1 & p2 & _ & _ & H1 & H2 & Heq & _).
  { right. right. by left. }
  by exists p1, p2.
Defined.

(** ** What the test suite expects, on the model *)

Example script_tag_is_escaped :
  escapeHtml ("<script>alert(" ++ JS.DQ ++ "xss" ++ JS.DQ ++ ")</script>")
  = "&lt;script&gt;alert(&quot;xss&quot;)&lt;/script&gt;".
Proof. reflexivity. Qed.

Example css_variables_of_brand_tokens :
  cssVariables brand_tokens
  = "  --color-primary: #3B82F6;" ++ JS.NL
    ++ "  --color-secondary: #10B981;" ++ JS.NL
    ++ "  --color-accent: #F59E0B;".
Proof. reflexivity. Qed.

Example short_name_of_test_project :
  Webflow.Site.shortName
    (run (webflowSite [hero] brand_tokens "Test Project") (fresh_world ids_a at_noon))
  = "test-project".
Proof. reflexivity. Qed.

Example style_names_of_brand_tokens :
  map Figma.Style.name
    (Figma.File.styles
       (run (figmaDocument [hero] brand_tokens "Test Project")
            (fresh_world ids_a at_noon)))
  = ["Color/primary"; "Color/secondary"; "Color/accent"].
Proof. reflexivity. Qed.

Example hero_fill_is_blue :
  map Figma.Paint.color
    (Figma.Frame.fills (figma_frame 0 hero))
  = [ {| Figma.Color.r := Some (59 # 255);
         Figma.Color.g := Some (130 # 255);
         Figma.Color.b := Some (246 # 255);
         Figma.Color.a := 1 |} ].
Proof. reflexivity. Qed.

(** The scaling of a frame is the multiplication of numbers: it rounds
    where the product is not a number, and keeps what is not a number. *)
Example stretched_frame :
  Figma.Frame.width (figma_frame 0 stretched) = 90071992547409904%float
  /\ Figma.Frame.height (figma_frame 0 stretched) = 335%float
  /\ Figma.Frame.x (figma_frame 0 stretched) = nan.
Proof. repeat split. Qed.

Example numbers_in_templates :
  map JS.Number_toString
    [100%float; 33.5%float; (-0.5)%float; 0x1.999999999999ap-4%float;
     9007199254740991%float; 90071992547409904%float;
     1e21%float; 0x1p-20%float; 0x1p-1074%float; neg_zero; nan; infinity]
  = ["100"; "33.5"; "-0.5"; "0.1";
     "9007199254740991"; "90071992547409900";
     "1e+21"; "9.5367431640625e-7"; "5e-324"; "0"; "NaN"; "Infinity"].
Proof. vm_compute. reflexivity. Qed.

Example stretched_style :
  Webflow.Node.style (fst (webflow_node stretched (fresh_world ids_a at_noon)))
  = {| Webflow.InlineStyle.backgroundColor := "#000000";
       Webflow.InlineStyle.color := "#ffffff";
       Webflow.InlineStyle.width := "9007199254740991%";
       Webflow.InlineStyle.height := "33.5px";
       Webflow.InlineStyle.position := "relative";
       Webflow.InlineStyle.left := "NaN%";
       Webflow.InlineStyle.top := "-0.5px" |}.
Proof. vm_compute. reflexivity. Qed.

Example index_is_printed_as_a_number :
  JS.Number_toString 12%float = JS.Integer_toString 12.
Proof. vm_compute. reflexivity. Qed.

Example framer_export_of_hero :
  run (exportToFramer [hero] brand_tokens "Test Project") (fresh_world ids_a at_noon)
  = Some {| ExportResult.url :=
              "https://storage.example/exports/Test Project/framer-V1StGXR8_Z5jdHi6B-myT.json";
            ExportResult.fileKey :=
              "exports/Test Project/framer-V1StGXR8_Z5jdHi6B-myT.json";
            ExportResult.format := "framer";
            ExportResult.fileName := "Test Project-framer.json" |}.
Proof. reflexivity. Qed.

Example rejected_write_fails :
  run (exportToHTML [hero] brand_tokens "Test Project")
      {| World.nanoid_values := ids_a;
         World.nanoid_calls := 0;
         World.clock_values := at_noon;
         World.clock_reads := 0;
         World.storage_answer := fun _ => None;
         World.stored := [] |}
  = None.
Proof. reflexivity. Qed.

(** * Further properties *)

(** ** Worlds *)

Lemma advanced_zero (w : World.t) : advanced 0 0 w = w.
Proof. by destruct w. Qed.

Lemma advanced_advanced (i r j s : nat) (w : World.t) :
  advanced i r (advanced j s w) = advanced (i + j) (r + s) w.
Proof. unfold advanced. cbn. f_equal; lia. Qed.

Lemma drew_id_advanced (w : World.t) : World.drew_id w = advanced 1 0 w.
Proof. reflexivity. Qed.

Lemma read_clock_advanced (w : World.t) : World.read_clock w = advanced 0 1 w.
Proof. reflexivity. Qed.

(** A list of steps that each draw one id draws as many ids as it is
    long, and the step at an index runs in the world advanced that far. *)
Lemma mapM_draws {A B} (f : A -> M B) :
  (forall a w, snd (f a w) = World.drew_id w) ->
  forall (l : list A) (w : World.t),
    snd (mapM f l w) = advanced (length l) 0 w
    /\ forall i a, l !! i = Some a ->
         fst (mapM f l w) !! i = Some (fst (f a (advanced i 0 w))).
Proof.
  intros Hf l. induction l as [|x l IH]; intros w.
  - cbn. rewrite advanced_zero. split; [reflexivity | by intros []].
  - cbn [mapM]. unfold bind, ret. pose proof (Hf x w) as Hx.
    destruct (f x w) as [b w'] eqn:Ex. cbn in Hx. subst w'.
    destruct (IH (World.drew_id w)) as [Hw Hi].
    destruct (mapM f l (World.drew_id w)) as [bs w'']. cbn in *. split.
    + rewrite Hw, drew_id_advanced, advanced_advanced. f_equal; lia.
    + intros [|i] a Ha.
      * injection Ha as <-. cbn. by rewrite advanced_zero, Ex.
      * simpl in Ha |- *. rewrite (Hi i a Ha), drew_id_advanced, advanced_advanced.
        by replace (i + 1) with (S i) by lia.
Qed.

Lemma figma_style_draws (entry : string * string) (w : World.t) :
  snd (figma_style entry w) = World.drew_id w.
Proof. by destruct entry. Qed.

Lemma webflow_node_draws (comp : ExportComponent.t) (w : World.t) :
  snd (webflow_node comp w) = World.drew_id w.
Proof. reflexivity. Qed.

(** ** What an export does to the world *)

Lemma framer_key (n u : string) :
  "exports/" ++ n ++ "/framer-" ++ u ++ ".json" = storage_key n "framer" u ".json".
Proof. reflexivity. Qed.

Lemma figma_key (n u : string) :
  "exports/" ++ n ++ "/figma-" ++ u ++ ".json" = storage_key n "figma" u ".json".
Proof. reflexivity. Qed.

Lemma webflow_key (n u : string) :
  "exports/" ++ n ++ "/webflow-" ++ u ++ ".json" = storage_key n "webflow" u ".json".
Proof. reflexivity. Qed.

Lemma html_key (n u : string) :
  "exports/" ++ n ++ "/html-" ++ u ++ ".html" = storage_key n "html" u ".html".
Proof. reflexivity. Qed.

Lemma bind_eq {A B} (c : M A) (k : A -> M B) (w : World.t) :
  bind c k w = k (fst (c w)) (snd (c w)).
Proof. unfold bind. by destruct (c w). Qed.

Lemma framerConfig_world (components : list ExportComponent.t)
    (designTokens : DesignTokens.t) (projectName : string) (w : World.t) :
  snd (framerConfig components designTokens projectName w) = advanced 0 1 w.
Proof. reflexivity. Qed.

Lemma figmaDocument_world (components : list ExportComponent.t)
    (designTokens : DesignTokens.t) (projectName : string) (w : World.t) :
  snd (figmaDocument components designTokens projectName w)
  = advanced (length (or_empty (DesignTokens.colors designTokens))) 0 w.
Proof.
  unfold figmaDocument. rewrite bind_eq. cbn.
  apply (mapM_draws figma_style figma_style_draws).
Qed.

Lemma webflowSite_world (components : list ExportComponent.t)
    (designTokens : DesignTokens.t) (projectName : string) (w : World.t) :
  snd (webflowSite components designTokens projectName w)
  = advanced (4 + length components) 7 w.
Proof.
  unfold webflowSite, bind, ret, nanoid, Date_toISOString. cbn.
  match goal with
  | |- context [mapM webflow_node components ?w0] =>
      destruct (mapM_draws webflow_node webflow_node_draws components w0) as [Hw _];
      change w0 with (advanced 3 7 w) in *
  end.
  destruct (mapM webflow_node components _) as [nodes w']. cbn in *. subst w'.
  rewrite drew_id_advanced, !advanced_advanced. f_equal; lia.
Qed.

Ltac draw_key :=
  rewrite bind_eq;
  match goal with
  | |- context [nanoid (advanced ?k ?r ?w)] =>
      change (nanoid (advanced k r w))
        with (World.nanoid_values w (k + World.nanoid_calls w), advanced (S k) r w)
  end;
  cbn [fst snd];
  rewrite bind_eq; unfold storagePut, ret;
  match goal with
  | |- context [World.storage_answer (advanced ?k ?r ?w)] =>
      change (World.storage_answer (advanced k r w)) with (World.storage_answer w)
  end.

Lemma export_outcome (f : Format) (components : list ExportComponent.t)
    (designTokens : DesignTokens.t) (projectName : string) (w : World.t) :
  export_of f components designTokens projectName w
  = outcome f components designTokens projectName w.
Proof.
  destruct f; unfold export_of, outcome, payload_of, ids_before_key, clock_readings,
    format_tag, format_ext, format_mime, format_file_name.
  - unfold exportToFramer. rewrite bind_eq, framerConfig_world.
    fold (run (framerConfig components designTokens projectName) w).
    draw_key. rewrite framer_key. by destruct (World.storage_answer w _).
  - unfold exportToFigma. rewrite bind_eq, figmaDocument_world.
    fold (run (figmaDocument components designTokens projectName) w).
    draw_key. rewrite figma_key. by destruct (World.storage_answer w _).
  - unfold exportToWebflow. rewrite bind_eq, webflowSite_world.
    fold (run (webflowSite components designTokens projectName) w).
    draw_key. rewrite webflow_key. by destruct (World.storage_answer w _).
  - unfold exportToHTML. rewrite <- (advanced_zero w) at 1.
    draw_key. rewrite html_key. by destruct (World.storage_answer w _).
Qed.

Lemma append_cancel_l (a x y : string) : a ++ x = a ++ y -> x = y.
Proof.
  induction a as [|c a IH]; [done |].
  rewrite !append_cons. intros [= H]. by apply IH.
Qed.

Lemma append_length (x y : string) :
  String.length (x ++ y) = String.length x + String.length y.
Proof.
  induction x as [|c x IH]; [reflexivity |].
  rewrite append_cons. cbn. by rewrite IH.
Qed.

(** Equal concatenations with tails of equal length have equal parts. *)
Lemma append_inj_tail (x y s t : string) :
  String.length s = String.length t -> x ++ s = y ++ t -> x = y /\ s = t.
Proof.
  intros Hlen. revert y.
  induction x as [|c x IH]; intros [|d y] H.
  - by split.
  - apply (f_equal String.length) in H.
    rewrite !append_length in H. cbn in H. lia.
  - apply (f_equal String.length) in H.
    rewrite !append_length in H. cbn in H. lia.
  - rewrite !append_cons in H. injection H as -> H.
    destruct (IH y H) as [-> ->]. by split.
Qed.

(** X1.  When storage accepts the key, an export returns the url storage
    answered for it together with that key, its format tag and its file
    name, and it has added one object to the store: its payload, under
    that key, with its content type.  The key is built from the id drawn
    after the ids of the payload. *)
Theorem export_accepted (f : Format) (components : list ExportComponent.t)
    (designTokens : DesignTokens.t) (projectName : string) (w : World.t)
    (url : string) :
  let key :=
    storage_key projectName (format_tag f)
      (World.nanoid_values w
         (ids_before_key f components designTokens + World.nanoid_calls w))
      (format_ext f) in
  World.storage_answer w key = Some url ->
  run (export_of f components designTokens projectName) w
  = Some {| ExportResult.url := url;
            ExportResult.fileKey := key;
            ExportResult.format := format_tag f;
            ExportResult.fileName := format_file_name f projectName |}
  /\ World.stored (snd (export_of f components designTokens projectName w))
     = (World.stored w
        ++ [(key, payload_of f components designTokens projectName w,
             format_mime f)])%list.
Proof.
  intros key Hurl. unfold run. rewrite export_outcome. unfold outcome.
  fold key. by rewrite Hurl.
Qed.

(** X3.  Whatever storage answers, an export leaves the id and clock
    sequences and the storage policy as they were, keeps what was stored,
    and spends a fixed number of ids and clock readings: one id for
    Framer and HTML, one more than the color tokens for Figma, five more
    than the components for Webflow; one clock reading for Framer, seven
    for Webflow, none for Figma and HTML. *)
Theorem export_footprint (f : Format) (components : list ExportComponent.t)
    (designTokens : DesignTokens.t) (projectName : string) (w : World.t) :
  let w' := snd (export_of f components designTokens projectName w) in
  World.nanoid_values w' = World.nanoid_values w
  /\ World.clock_values w' = World.clock_values w
  /\ World.storage_answer w' = World.storage_answer w
  /\ World.nanoid_calls w'
     = World.nanoid_calls w
       + match f with
         | FramerFormat | HtmlFormat => 1
         | FigmaFormat => length (or_empty (DesignTokens.colors designTokens)) + 1
         | WebflowFormat => length components + 5
         end
  /\ World.clock_reads w'
     = World.clock_reads w
       + match f with FramerFormat => 1 | WebflowFormat => 7 | _ => 0 end
  /\ exists written, World.stored w' = (World.stored w ++ written)%list
                     /\ length written <= 1.
Proof.
  cbn zeta. rewrite export_outcome. unfold outcome.
  destruct (World.storage_answer w _) as [url|]; cbn [snd];
    unfold World.wrote, advanced, ids_before_key, clock_readings;
    (split; [reflexivity |]); (split; [reflexivity |]); (split; [reflexivity |]);
    (split; [destruct f; cbn; lia |]); (split; [destruct f; cbn; lia |]).
  - eexists [_]. split; [reflexivity | cbn; lia].
  - exists []. split; [by rewrite app_nil_r | cbn; lia].
Qed.

Lemma outcome_key (f : Format) (components : list ExportComponent.t)
    (designTokens : DesignTokens.t) (projectName : string) (w : World.t)
    (r : ExportResult.t) :
  fst (outcome f components designTokens projectName w) = Some r ->
  ExportResult.fileKey r
  = storage_key projectName (format_tag f)
      (World.nanoid_values w
         (ids_before_key f components designTokens + World.nanoid_calls w))
      (format_ext f).
Proof.
  unfold outcome. destruct (World.storage_answer w _); [| discriminate].
  by intros [= <-].
Qed.

Lemma outcome_ids (f : Format) (components : list ExportComponent.t)
    (designTokens : DesignTokens.t) (projectName : string) (w : World.t) :
  let w' := snd (outcome f components designTokens projectName w) in
  World.nanoid_values w' = World.nanoid_values w
  /\ World.nanoid_calls w'
     = S (ids_before_key f components designTokens) + World.nanoid_calls w.
Proof.
  unfold outcome. by destruct (World.storage_answer w _).
Qed.

(** X4.  When [nanoid()] never repeats an id, two exports for the same
    project name, the second run in the world the first left, are stored
    under different keys, whatever their formats and designs. *)
Theorem consecutive_exports_distinct_keys (f1 f2 : Format)
    (components1 components2 : list ExportComponent.t)
    (tokens1 tokens2 : DesignTokens.t) (projectName : string) (w : World.t)
    (r1 r2 : ExportResult.t) :
  fresh_ids w ->
  run (export_of f1 components1 tokens1 projectName) w = Some r1 ->
  run (export_of f2 components2 tokens2 projectName)
      (snd (export_of f1 components1 tokens1 projectName w)) = Some r2 ->
  ExportResult.fileKey r1 <> ExportResult.fileKey r2.
Proof.
  intros Hfresh. unfold run. rewrite !export_outcome. intros H1 H2.
  apply outcome_key in H1, H2. rewrite H1, H2.
  destruct (outcome_ids f1 components1 tokens1 projectName w) as [-> ->].
  unfold storage_key. intros Hkeys.
  apply append_cancel_l, append_cancel_l, append_cancel_l in Hkeys.
  destruct f1, f2; cbn [format_tag format_ext] in Hkeys;
    first
      [ apply append_cancel_l, append_cancel_l, append_inj_tail in Hkeys as [Hid _];
        [apply Hfresh in Hid; lia | reflexivity]
      | rewrite !append_cons in Hkeys; discriminate Hkeys ].
Qed.

(** ** Generated ids *)

Lemma Integer_toString_inj (a b : Z) :
  JS.Integer_toString a = JS.Integer_toString b -> a = b.
Proof.
  unfold JS.Integer_toString, JS.decimal. intros H.
  apply (f_equal NilEmpty.int_of_string) in H. rewrite !NilEmpty.isi in H.
  injection H as H. apply (f_equal Z.of_int) in H.
  by rewrite !DecimalZ.of_to in H.
Qed.

Lemma webflow_paragraph_ids (components : list ExportComponent.t) (w : World.t) :
  flat_map (fun node => map Webflow.Paragraph._id (Webflow.Node.children node))
    (fst (mapM webflow_node components w))
  = map (fun i => World.nanoid_values w (i + World.nanoid_calls w))
      (seq 0 (length components)).
Proof.
  revert w. induction components as [|x l IH]; intros w; [reflexivity |].
  cbn [mapM]. unfold webflow_node at 1, bind, ret, nanoid. cbn.
  specialize (IH (World.drew_id w)).
  destruct (mapM webflow_node l (World.drew_id w)) as [nodes w']. cbn in *.
  rewrite IH. f_equal.
  rewrite <- fmap_S_seq, <- list_fmap_compose. apply list_fmap_ext.
  intros ? i _. unfold World.drew_id. cbn.
  apply (f_equal (World.nanoid_values w)). lia.
Qed.

Lemma webflowSite_generated_ids (components : list ExportComponent.t)
    (designTokens : DesignTokens.t) (projectName : string) (w : World.t) :
  webflow_generated_ids (run (webflowSite components designTokens projectName) w)
  = map (fun i => World.nanoid_values w (i + World.nanoid_calls w))
      (seq 0 (length components + 4)).
Proof.
  unfold webflowSite, run, bind, ret, nanoid, Date_toISOString. cbn.
  match goal with
  | |- context [mapM webflow_node components ?w0] =>
      destruct (mapM_draws webflow_node webflow_node_draws components w0) as [Hw _];
      pose proof (webflow_paragraph_ids components w0) as Hp;
      change w0 with (advanced 3 7 w) in *
  end.
  destruct (mapM webflow_node components _) as [nodes w']. cbn [fst snd] in *.
  subst w'. unfold webflow_generated_ids.
  cbn [Webflow.Site._id Webflow.Site.pages Webflow.Site.cmsLocales
       Webflow.Page._id Webflow.Page.rootElementId Webflow.Page.children
       Webflow.Locale._id flat_map map app].
  rewrite app_nil_r, Hp.
  replace (length components + 4) with (3 + (length components + 1)) by lia.
  cbn [seq map Nat.add].
  do 3 (apply (f_equal2 cons); [reflexivity |]).
  rewrite seq_app, map_app. apply (f_equal2 app).
  - rewrite <- (fmap_add_seq 3 0), <- list_fmap_compose. apply list_fmap_ext.
    intros ? i _. unfold advanced. cbn.
    apply (f_equal (World.nanoid_values w)). lia.
  - cbn [seq map]. apply (f_equal2 cons); [| reflexivity].
    unfold World.drew_id, advanced. cbn.
    apply (f_equal (World.nanoid_values w)). lia.
Qed.

(** X5.  When [nanoid()] never repeats an id, the generated ids of a
    Webflow payload - of the site, the page, its root element, the
    paragraph of each component and the locale - are pairwise different,
    and there are four more of them than components. *)
Theorem webflow_generated_ids_distinct (components : list ExportComponent.t)
    (designTokens : DesignTokens.t) (projectName : string) (w : World.t) :
  fresh_ids w ->
  let site := run (webflowSite components designTokens projectName) w in
  NoDup (webflow_generated_ids site)
  /\ length (webflow_generated_ids site) = length components + 4.
Proof.
  intros Hfresh site. unfold site. rewrite webflowSite_generated_ids. split.
  - apply NoDup_fmap_2_strong; [| apply NoDup_seq].
    intros i j _ _ H. apply Hfresh in H. lia.
  - by rewrite length_map, length_seq.
Qed.

Lemma figma_frames_run (components : list ExportComponent.t)
    (designTokens : DesignTokens.t) (projectName : string) (w : World.t) :
  figma_frames (run (figmaDocument components designTokens projectName) w)
  = imap figma_frame components.
Proof.
  unfold figma_frames. rewrite figmaDocument_canvas. cbn. apply app_nil_r.
Qed.

Lemma figma_text_ids_from (k : nat) (components : list ExportComponent.t) :
  flat_map (fun frame => map Figma.Text.id (Figma.Frame.children frame))
    (imap (fun i => figma_frame (k + i)) components)
  = map (fun i => JS.Integer_toString (Z.of_nat i) ++ ":1")
      (seq k (length components)).
Proof.
  revert k. induction components as [|x l IH]; intros k; [reflexivity |].
  rewrite imap_cons. cbn. rewrite Nat.add_0_r. f_equal.
  rewrite <- (IH (S k)). f_equal. apply imap_ext. intros i y _. cbn.
  by replace (k + S i) with (S (k + i)) by lia.
Qed.

Lemma figma_ids_run (components : list ExportComponent.t)
    (designTokens : DesignTokens.t) (projectName : string) (w : World.t) :
  let file := run (figmaDocument components designTokens projectName) w in
  figma_frame_ids file
  = map (fun i => JS.Integer_toString (Z.of_nat i) ++ ":0")
      (seq 0 (length components))
  /\ figma_text_ids file
     = map (fun i => JS.Integer_toString (Z.of_nat i) ++ ":1")
         (seq 0 (length components)).
Proof.
  cbn zeta. unfold figma_frame_ids, figma_text_ids. rewrite figma_frames_run. split.
  - change (map Figma.Frame.id (imap figma_frame components))
      with (Figma.Frame.id <$> imap figma_frame components).
    rewrite fmap_imap. apply (imap_seq_0 components
      (fun i => JS.Integer_toString (Z.of_nat i) ++ ":0")).
  - apply (figma_text_ids_from 0).
Qed.

Lemma indexed_id_inj (s t : string) (i j : nat) :
  String.length s = String.length t ->
  JS.Integer_toString (Z.of_nat i) ++ s = JS.Integer_toString (Z.of_nat j) ++ t ->
  i = j /\ s = t.
Proof.
  intros Hlen H. apply append_inj_tail in H as [H ->]; [| exact Hlen].
  apply Integer_toString_inj in H. split; [lia | reflexivity].
Qed.

(** X6.  In a Figma payload the ids of the frames and of their texts are
    pairwise different: no two frames, no two texts and no frame and text
    share an id. *)
Theorem figma_frame_and_text_ids_distinct (components : list ExportComponent.t)
    (designTokens : DesignTokens.t) (projectName : string) (w : World.t) :
  let file := run (figmaDocument components designTokens projectName) w in
  NoDup (figma_frame_ids file ++ figma_text_ids file)
  /\ length (figma_frame_ids file) = length components
  /\ length (figma_text_ids file) = length components.
Proof.
  cbn zeta.
  destruct (figma_ids_run components designTokens projectName w) as [-> ->].
  rewrite !length_map, !length_seq. split; [| by split].
  apply NoDup_app. split; [| split].
  - apply NoDup_fmap_2_strong; [| apply NoDup_seq].
    intros i j _ _ H. by apply indexed_id_inj in H as [-> _].
  - intros id (i & -> & _)%list_elem_of_fmap (j & H & _)%list_elem_of_fmap.
    apply indexed_id_inj in H as [_ H]; [discriminate H | reflexivity].
  - apply NoDup_fmap_2_strong; [| apply NoDup_seq].
    intros i j _ _ H. by apply indexed_id_inj in H as [-> _].
Qed.

(** X7.  The ids of a Figma payload are not unique across the tree: the
    frame of the first component carries the id of the document, and the
    frame of the second component the id of the canvas. *)
Theorem figma_frames_reuse_document_and_canvas_ids
    (components : list ExportComponent.t)
    (designTokens : DesignTokens.t) (projectName : string) (w : World.t) :
  let document :=
    Figma.File.document (run (figmaDocument components designTokens projectName) w) in
  exists canvas,
    Figma.Document.children document = [canvas]
    /\ (forall comp, components !! 0 = Some comp ->
          exists frame, Figma.Canvas.children canvas !! 0 = Some frame
                        /\ Figma.Frame.id frame = Figma.Document.id document)
    /\ (forall comp, components !! 1 = Some comp ->
          exists frame, Figma.Canvas.children canvas !! 1 = Some frame
                        /\ Figma.Frame.id frame = Figma.Canvas.id canvas).
Proof.
  cbn zeta. rewrite figmaDocument_canvas. eexists. split; [reflexivity |].
  cbn [Figma.Canvas.children Figma.Canvas.id]. split.
  - intros comp H. exists (figma_frame 0 comp).
    rewrite list_lookup_imap, H. split; [reflexivity |].
    unfold figmaDocument. rewrite run_bind. reflexivity.
  - intros comp H. exists (figma_frame 1 comp).
    rewrite list_lookup_imap, H. by split.
Qed.

(** X8.  A Figma payload has one style per color token, in the order of
    the tokens: the style at an index is named [Color/] followed by the
    token's name, described by [Color token: ] followed by the name,
    painted with the token's color, not remote, and keyed by the id drawn
    at that index, so that the keys are pairwise different when
    [nanoid()] never repeats an id. *)
Theorem figma_style_per_color_token (components : list ExportComponent.t)
    (designTokens : DesignTokens.t) (projectName : string) (w : World.t) :
  let styles :=
    Figma.File.styles (run (figmaDocument components designTokens projectName) w) in
  let colors := or_empty (DesignTokens.colors designTokens) in
  length styles = length colors
  /\ (forall i name color,
        colors !! i = Some (name, color) ->
        styles !! i
        = Some {| Figma.Style.key :=
                    World.nanoid_values w (i + World.nanoid_calls w);
                  Figma.Style.name := "Color/" ++ name;
                  Figma.Style.description := "Color token: " ++ name;
                  Figma.Style.remote := false;
                  Figma.Style.paints := [solid_paint color] |})
  /\ (fresh_ids w -> NoDup (map Figma.Style.key styles)).
Proof.
  cbn zeta. rewrite figmaDocument_styles.
  set (colors := or_empty (DesignTokens.colors designTokens)).
  destruct (mapM_draws figma_style figma_style_draws colors w) as [_ Hlookup].
  assert (Hat : forall i name color,
             colors !! i = Some (name, color) ->
             fst (mapM figma_style colors w) !! i
             = Some {| Figma.Style.key :=
                         World.nanoid_values w (i + World.nanoid_calls w);
                       Figma.Style.name := "Color/" ++ name;
                       Figma.Style.description := "Color token: " ++ name;
                       Figma.Style.remote := false;
                       Figma.Style.paints := [solid_paint color] |}).
  { intros i name color H. by rewrite (Hlookup i _ H). }
  split; [apply mapM_length |]. split; [exact Hat |].
  intros Hfresh.
  assert (Hkeys : map Figma.Style.key (fst (mapM figma_style colors w))
                  = map (fun i => World.nanoid_values w (i + World.nanoid_calls w))
                      (seq 0 (length colors))).
  { apply list_eq. intros i.
    change (map Figma.Style.key (fst (mapM figma_style colors w)))
      with (Figma.Style.key <$> fst (mapM figma_style colors w)).
    rewrite !list_lookup_fmap.
    destruct (colors !! i) as [[name color]|] eqn:E.
    - rewrite (Hat i name color E). cbn.
      rewrite lookup_seq_lt by (by eapply lookup_lt_Some). reflexivity.
    - apply lookup_ge_None in E.
      rewrite (proj2 (lookup_ge_None _ _)) by (by rewrite mapM_length).
      by rewrite (proj2 (lookup_ge_None (seq 0 (length colors)) i))
        by (by rewrite length_seq). }
  rewrite Hkeys. apply NoDup_fmap_2_strong; [| apply NoDup_seq].
  intros i j _ _ H. apply Hfresh in H. lia.
Qed.

(** ** More on [escapeHtml] *)

Lemma entity_shape (c : ascii) :
  (entity c = String c EmptyString /\ c <> "&"%char)
  \/ (significant c /\ exists rest, entity c = String "&" rest).
Proof.
  each_char c;
    first [ left; split; [reflexivity | discriminate]
          | right; split; [vm_compute; tauto | eexists; reflexivity] ].
Qed.

Lemma entity_app_inj (c d : ascii) (x y : string) :
  entity c ++ x = entity d ++ y -> c = d /\ x = y.
Proof.
  destruct (entity_shape c) as [[Ec Hc] | [Sc [rc Ec]]],
           (entity_shape d) as [[Ed Hd] | [Sd [rd Ed]]].
  - rewrite Ec, Ed, !append_cons. intros [= -> H]. by split.
  - rewrite Ec, Ed, !append_cons. intros [= -> _]. done.
  - rewrite Ec, Ed, !append_cons. intros [= <- _]. done.
  - clear Ec Ed.
    destruct Sc as [-> | [-> | [-> | [-> | ->]]]],
             Sd as [-> | [-> | [-> | [-> | ->]]]];
      intros H; vm_compute in H;
      first [ discriminate H
            | injection H as H; by split ].
Qed.

Lemma entity_not_empty (c : ascii) (x : string) : entity c ++ x <> EmptyString.
Proof.
  destruct (entity_shape c) as [[-> _] | [_ [rest ->]]];
    rewrite append_cons; discriminate.
Qed.

Lemma escapeHtml_inj (s t : string) : escapeHtml s = escapeHtml t -> s = t.
Proof.
  revert t. induction s as [|c s IH]; intros [|d t] H.
  - reflexivity.
  - rewrite escapeHtml_cons in H. symmetry in H. by apply entity_not_empty in H.
  - rewrite escapeHtml_cons in H. by apply entity_not_empty in H.
  - rewrite !escapeHtml_cons in H. apply entity_app_inj in H as [-> H].
    by rewrite (IH t H).
Qed.

(** X9.  [escapeHtml] loses nothing and is safe inside a quoted
    attribute: two different texts never escape to the same text, and an
    escaped text holds neither a double quote nor an apostrophe. *)
Theorem escapeHtml_injective_quote_free (text other : string) :
  (escapeHtml text = escapeHtml other -> text = other)
  /\ lacks JS.dquote (escapeHtml text) = true
  /\ lacks "'" (escapeHtml text) = true.
Proof.
  split; [apply escapeHtml_inj |].
  destruct (escapeHtml_lacks text) as (_ & _ & H3 & H4). by split.
Qed.

(** ** More on [hexToRgb] *)

Lemma lower_char_hex (c : ascii) :
  hex_digit (JS.lower_char c) = hex_digit c
  /\ JS.hex_value (JS.lower_char c) = JS.hex_value c
  /\ Ascii.eqb (JS.lower_char c) "#" = Ascii.eqb c "#".
Proof. each_char c; repeat split; reflexivity. Qed.

Lemma parse_hex_prefix_lower (s : string) (acc : Z) :
  JS.parse_hex_prefix acc (JS.toLowerCase s) = JS.parse_hex_prefix acc s.
Proof.
  revert acc. induction s as [|c s IH]; intros acc; [reflexivity |].
  cbn [JS.toLowerCase JS.parse_hex_prefix].
  rewrite (proj1 (proj2 (lower_char_hex c))).
  destruct (JS.hex_value c); [apply IH | reflexivity].
Qed.

Lemma parseInt16_lower (s : string) :
  JS.parseInt16 (JS.toLowerCase s) = JS.parseInt16 s.
Proof.
  destruct s as [|c s]; [reflexivity |].
  unfold JS.parseInt16. cbn [JS.toLowerCase].
  rewrite (proj1 (proj2 (lower_char_hex c))).
  destruct (JS.hex_value c) eqn:E; [| reflexivity].
  f_equal. change (String (JS.lower_char c) (JS.toLowerCase s))
             with (JS.toLowerCase (String c s)).
  apply parse_hex_prefix_lower.
Qed.

Lemma six_hex_groups_lower (s : string) :
  six_hex_groups (JS.toLowerCase s) = option_map lower_groups (six_hex_groups s).
Proof.
  destruct s as [|c1 [|c2 [|c3 [|c4 [|c5 [|c6 [|? ?]]]]]]]; try reflexivity.
  cbn [JS.toLowerCase]. unfold six_hex_groups.
  rewrite !(proj1 (lower_char_hex _)).
  by destruct (hex_digit c1 && hex_digit c2 && hex_digit c3
               && hex_digit c4 && hex_digit c5 && hex_digit c6).
Qed.

Lemma hex_regex_exec_other (c : ascii) (rest : string) :
  c <> "#"%char ->
  hex_regex_exec (String c rest) = six_hex_groups (String c rest).
Proof. intros H. unfold hex_regex_exec. each_char c; try reflexivity. contradiction. Qed.

Lemma hex_regex_exec_lower (hex : string) :
  hex_regex_exec (JS.toLowerCase hex) = option_map lower_groups (hex_regex_exec hex).
Proof.
  destruct hex as [|c rest]; [reflexivity |].
  destruct (Ascii.eqb_spec c "#") as [-> | Hne].
  - change (JS.toLowerCase (String "#" rest)) with (String "#" (JS.toLowerCase rest)).
    unfold hex_regex_exec.
    change (String "#" (JS.toLowerCase rest)) with (JS.toLowerCase (String "#" rest)).
    rewrite !six_hex_groups_lower.
    by destruct (six_hex_groups rest).
  - rewrite (hex_regex_exec_other c rest Hne).
    rewrite <- six_hex_groups_lower. cbn [JS.toLowerCase].
    apply hex_regex_exec_other.
    intros H. apply Hne. apply Ascii.eqb_eq.
    rewrite <- (proj2 (proj2 (lower_char_hex c))). by apply Ascii.eqb_eq.
Qed.

(** X10.  [hexToRgb] ignores the case of its argument: a color and its
    lower-case form decode to the same channels. *)
Theorem hexToRgb_ignores_case (hex : string) :
  hexToRgb (JS.toLowerCase hex) = hexToRgb hex.
Proof.
  unfold hexToRgb. rewrite hex_regex_exec_lower.
  destruct (hex_regex_exec hex) as [[[g1 g2] g3]|]; [| reflexivity].
  cbn. by rewrite !parseInt16_lower.
Qed.

(** ** The short name of a Webflow site *)

Lemma webflowSite_shortName (components : list ExportComponent.t)
    (designTokens : DesignTokens.t) (projectName : string) (w : World.t) :
  Webflow.Site.shortName (run (webflowSite components designTokens projectName) w)
  = JS.replace_space_runs "-" false (JS.toLowerCase projectName).
Proof.
  unfold webflowSite, run, bind, ret, nanoid, Date_toISOString. cbn.
  by destruct (mapM webflow_node components _).
Qed.

Lemma lower_char_facts (c : ascii) :
  is_upper (JS.lower_char c) = false
  /\ JS.is_space (JS.lower_char c) = JS.is_space c
  /\ (is_upper c = false -> JS.lower_char c = c).
Proof. each_char c; repeat split; (reflexivity || discriminate). Qed.

Lemma toLowerCase_facts (s : string) :
  Forall (fun c => is_upper c = false) (chars (JS.toLowerCase s))
  /\ String.length (JS.toLowerCase s) = String.length s
  /\ (Forall (fun c => is_upper c = false) (chars s) -> JS.toLowerCase s = s).
Proof.
  induction s as [|c s (IH1 & IH2 & IH3)]; [by repeat split |].
  destruct (lower_char_facts c) as (H1 & _ & H3).
  cbn [JS.toLowerCase chars list_ascii_of_string String.length]. split; [| split].
  - by constructor.
  - by rewrite IH2.
  - intros H. apply Forall_cons in H as [Hc Hs]. by rewrite (H3 Hc), (IH3 Hs).
Qed.

Lemma replace_space_runs_facts (s : string) (in_run : bool) :
  let out := JS.replace_space_runs "-" in_run s in
  Forall (fun c => JS.is_space c = false) (chars out)
  /\ (Forall (fun c => is_upper c = false) (chars s) ->
      Forall (fun c => is_upper c = false) (chars out))
  /\ String.length out <= String.length s
  /\ (Forall (fun c => JS.is_space c = false) (chars s) -> out = s).
Proof.
  cbn zeta. revert in_run.
  induction s as [|c s IH]; intros in_run; [by repeat split |].
  cbn [JS.replace_space_runs].
  destruct (IH true) as (T1 & T2 & T3 & T4), (IH false) as (F1 & F2 & F3 & F4).
  destruct (JS.is_space c) eqn:Ec; [destruct in_run |].
  - repeat split.
    + exact T1.
    + intros H. apply Forall_cons in H as [_ H]. by apply T2.
    + cbn. lia.
    + intros H. apply Forall_cons in H as [H _]. congruence.
  - rewrite append_cons. cbn [chars list_ascii_of_string String.length].
    change (EmptyString ++ ?x) with x. repeat split.
    + by constructor.
    + intros H. apply Forall_cons in H as [_ H]. constructor; [reflexivity |].
      by apply T2.
    + lia.
    + intros H. apply Forall_cons in H as [H _]. congruence.
  - cbn [chars list_ascii_of_string String.length]. repeat split.
    + by constructor.
    + intros H. apply Forall_cons in H as [Hc H]. constructor; [exact Hc |].
      by apply F2.
    + lia.
    + intros H. apply Forall_cons in H as [_ H]. by rewrite (F4 H).
Qed.

(** X11.  For a project name of ASCII characters, the short name of a
    Webflow site holds no whitespace and no upper-case letter and is never
    longer than the project name; such a project name that holds neither
    is its own short name. *)
Theorem webflow_short_name_is_a_slug (components : list ExportComponent.t)
    (designTokens : DesignTokens.t) (projectName : string) (w : World.t) :
  ascii_text projectName ->
  let shortName :=
    Webflow.Site.shortName
      (run (webflowSite components designTokens projectName) w) in
  Forall (fun c => JS.is_space c = false /\ is_upper c = false) (chars shortName)
  /\ String.length shortName <= String.length projectName
  /\ (Forall (fun c => JS.is_space c = false /\ is_upper c = false)
        (chars projectName) ->
      shortName = projectName).
Proof.
  intros _. cbn zeta. rewrite webflowSite_shortName.
  destruct (toLowerCase_facts projectName) as (L1 & L2 & L3).
  destruct (replace_space_runs_facts (JS.toLowerCase projectName) false)
    as (R1 & R2 & R3 & R4).
  cbn zeta in *. split; [| split].
  - apply Forall_and. split; [exact R1 | by apply R2].
  - lia.
  - intros H. apply Forall_and in H as [Hs Hu].
    rewrite (L3 Hu) in *. by apply R4.
Qed.

(** ** The props and the frame of a Framer payload *)

Lemma framer_explicit_dom (comp : ExportComponent.t) :
  dom (framer_explicit_props comp) = explicit_keys.
Proof.
  unfold framer_explicit_props, explicit_keys.
  rewrite !dom_insert_L, dom_empty_L. cbn. set_solver.
Qed.

(** X12.  In a Framer payload the children of the frame are the ids of
    the descriptors, in order; no descriptor has children; and the keys of
    the props of a descriptor are the eight explicit field names together
    with the keys of the component's properties. *)
Theorem framer_descriptors_are_flat_and_complete
    (components : list ExportComponent.t)
    (designTokens : DesignTokens.t) (projectName : string) (w : World.t) :
  let config := run (framerConfig components designTokens projectName) w in
  map Framer.Frame.children (Framer.Config.frames config)
  = [map Framer.Component.id (Framer.Config.components config)]
  /\ Forall (fun descriptor => Framer.Component.children descriptor = [])
       (Framer.Config.components config)
  /\ forall i comp,
       components !! i = Some comp ->
       exists descriptor,
         Framer.Config.components config !! i = Some descriptor
         /\ dom (Framer.Component.props descriptor)
            = dom (ExportComponent.properties comp) ∪ explicit_keys.
Proof.
  cbn zeta. rewrite framerConfig_run. cbn. split; [| split].
  - by rewrite map_map.
  - apply Forall_fmap. by apply Forall_true.
  - intros i comp Hi. exists (framer_component comp).
    change (map framer_component components) with (framer_component <$> components).
    rewrite list_lookup_fmap, Hi. split; [reflexivity |].
    unfold framer_component, spread. cbn.
    by rewrite dom_union_L, framer_explicit_dom.
Qed.

(** ** The paints of a Figma payload *)

Lemma solid_paint_unit (hex : string) : unit_solid_paint (solid_paint hex).
Proof.
  destruct (hexToRgb_in_range hex) as (r & g & b & E & Hr & Hg & Hb).
  unfold unit_solid_paint, solid_paint. rewrite E. cbn.
  repeat split; unfold Qle; cbn; lia.
Qed.

Lemma mapM_Forall {A B} (f : A -> M B) (P : B -> Prop) :
  (forall a w, P (fst (f a w))) ->
  forall (l : list A) (w : World.t), Forall P (fst (mapM f l w)).
Proof.
  intros Hf l. induction l as [|x l IH]; intros w; [constructor |].
  cbn [mapM]. unfold bind, ret. pose proof (Hf x w) as Hx.
  destruct (f x w) as [b w']. specialize (IH w').
  destruct (mapM f l w') as [bs w'']. by constructor.
Qed.

Lemma Forall_flat_map {A B} (P : B -> Prop) (f : A -> list B) (l : list A) :
  Forall (fun a => Forall P (f a)) l -> Forall P (flat_map f l).
Proof.
  induction 1 as [|a l Ha _ IH]; [constructor |].
  cbn. by apply Forall_app.
Qed.

(** X13.  Every paint of a Figma payload - the fill of each frame, the
    fill of each text and the paint of each style - is an opaque solid paint
    whose three channels are numbers between 0 and 1, whatever the color
    strings of the design are. *)
Theorem figma_paints_are_unit_solid (components : list ExportComponent.t)
    (designTokens : DesignTokens.t) (projectName : string) (w : World.t) :
  Forall unit_solid_paint
    (figma_paints (run (figmaDocument components designTokens projectName) w)).
Proof.
  unfold figma_paints. rewrite figma_frames_run, figmaDocument_styles.
  assert (Hframes : Forall (fun frame =>
                      Forall unit_solid_paint (Figma.Frame.fills frame)
                      /\ Forall unit_solid_paint
                           (flat_map Figma.Text.fills (Figma.Frame.children frame)))
                      (imap figma_frame components)).
  { apply Forall_lookup. intros i frame H.
    rewrite list_lookup_imap in H.
    destruct (components !! i) as [comp|]; [| discriminate H].
    injection H as <-. cbn.
    split; (constructor; [apply solid_paint_unit | constructor]). }
  apply Forall_and in Hframes as [Hfills Htexts].
  apply Forall_app. split; [by apply Forall_flat_map |].
  apply Forall_app. split; [by apply Forall_flat_map |].
  apply Forall_flat_map, mapM_Forall.
  intros [name color] w'. cbn. constructor; [apply solid_paint_unit | constructor].
Qed.

(** ** Markup in the HTML document *)



Lemma section_html_openers (comp : ExportComponent.t) (t : string) :
  plain_component comp ->
  occurrences tag_opener (section_html comp ++ t) = 8 + occurrences tag_opener t.
Proof.
  intros (Htype & Hbg & Hfg). unfold markup_free in *.
  unfold section_html, section_open, section_style, tag_opener.
  rewrite !string_app_assoc. count_chunks. reflexivity.
Qed.

Lemma componentsHTML_openers (components : list ExportComponent.t) (t : string) :
  Forall plain_component components ->
  occurrences tag_opener (componentsHTML components ++ t)
  = 8 * length components + occurrences tag_opener t.
Proof.
  unfold componentsHTML, JS.join.
  induction components as [|x l IH]; [reflexivity |].
  intros H. apply Forall_cons in H as [Hx Hl].
  destruct l as [|y l].
  - change (occurrences tag_opener (section_html x ++ t)
            = 8 * 1 + occurrences tag_opener t).
    by rewrite section_html_openers.
  - change (occurrences tag_opener
              ((section_html x ++ JS.NL
                ++ String.concat JS.NL (map section_html (y :: l))) ++ t)
            = 8 * S (length (y :: l)) + occurrences tag_opener t).
    rewrite !string_app_assoc, section_html_openers by exact Hx.
    unfold tag_opener at 1. count_chunks. fold tag_opener.
    rewrite IH by exact Hl. lia.
Qed.

(** X15.  Text written by the user adds no markup to the HTML document:
    when no component type or color and no color token holds a [<], the
    number of [<] in the document is fifteen plus eight per component,
    whatever the project name and the titles and contents of the
    components are. *)
Theorem html_text_adds_no_markup (components : list ExportComponent.t)
    (designTokens : DesignTokens.t) (projectName : string) :
  Forall plain_component components -> plain_tokens designTokens ->
  occurrences tag_opener (htmlContent components designTokens projectName)
  = 15 + 8 * length components.
Proof.
  intros Hc Ht. unfold htmlContent, html_template, tag_opener.
  count_chunks. fold tag_opener.
  rewrite componentsHTML_openers by exact Hc.
  unfold tag_opener. vm_compute (occurrences _ html_tail). lia.
Qed.

(** ** The nodes of a Webflow page *)

Lemma webflow_node_ids (components : list ExportComponent.t) (w : World.t) :
  map Webflow.Node._id (fst (mapM webflow_node components w))
  = map ExportComponent.id components.
Proof.
  revert w. induction components as [|x l IH]; intros w; [reflexivity |].
  cbn [mapM]. unfold webflow_node at 1, bind, ret, nanoid. cbn.
  specialize (IH (World.drew_id w)).
  destruct (mapM webflow_node l (World.drew_id w)) as [nodes w']. cbn in *.
  by rewrite IH.
Qed.

(** X16.  The nodes of the Webflow page carry the ids of the components,
    in input order; when the component ids are pairwise different, so are
    the node ids. *)
Theorem webflow_nodes_keep_component_ids (components : list ExportComponent.t)
    (designTokens : DesignTokens.t) (projectName : string) (w : World.t) :
  exists page,
    Webflow.Site.pages (run (webflowSite components designTokens projectName) w)
    = [page]
    /\ map Webflow.Node._id (Webflow.Page.children page)
       = map ExportComponent.id components
    /\ (NoDup (map ExportComponent.id components) ->
        NoDup (map Webflow.Node._id (Webflow.Page.children page))).
Proof.
  destruct (webflowSite_pages components designTokens projectName w)
    as (w' & page & Hpages & _ & _ & Hchildren).
  exists page. split; [exact Hpages |].
  rewrite Hchildren, webflow_node_ids. by split.
Qed.

(** ** The further properties on sample data *)

Lemma numbered_ids_fresh (clock : nat -> string) :
  fresh_ids (fresh_world numbered_ids clock).
Proof.
  intros i j H. cbn in H. unfold numbered_ids in H.
  apply append_cancel_l, Integer_toString_inj in H. lia.
Defined.

Lemma export_accepted_witness :
  run (export_of FigmaFormat landing_page brand_tokens "Test Project")
      (fresh_world numbered_ids at_noon)
  = Some {| ExportResult.url :=
              "https://storage.example/exports/Test Project/figma-id-3.json";
            ExportResult.fileKey := "exports/Test Project/figma-id-3.json";
            ExportResult.format := "figma";
            ExportResult.fileName := "Test Project-figma.json" |}.
Proof.
  apply (export_accepted FigmaFormat landing_page brand_tokens "Test Project"
           (fresh_world numbered_ids at_noon)
           "https://storage.example/exports/Test Project/figma-id-3.json").
  reflexivity.
Defined.

Lemma consecutive_exports_witness :
  "exports/Test Project/html-id-0.html" <> "exports/Test Project/framer-id-1.json".
Proof.
  apply (consecutive_exports_distinct_keys HtmlFormat FramerFormat
           landing_page [hero] brand_tokens DesignTokens.none "Test Project"
           (fresh_world numbered_ids at_noon)
           {| ExportResult.url :=
                "https://storage.example/exports/Test Project/html-id-0.html";
              ExportResult.fileKey := "exports/Test Project/html-id-0.html";
              ExportResult.format := "html";
              ExportResult.fileName := "Test Project.html" |}
           {| ExportResult.url :=
                "https://storage.example/exports/Test Project/framer-id-1.json";
              ExportResult.fileKey := "exports/Test Project/framer-id-1.json";
              ExportResult.format := "framer";
              ExportResult.fileName := "Test Project-framer.json" |});
    [apply numbered_ids_fresh | reflexivity | reflexivity].
Defined.

Lemma webflow_generated_ids_witness :
  webflow_generated_ids
    (run (webflowSite landing_page brand_tokens "Test Project")
         (fresh_world numbered_ids at_noon))
  = ["id-0"; "id-1"; "id-2"; "id-3"; "id-4"; "id-5"]
  /\ NoDup (webflow_generated_ids
              (run (webflowSite landing_page brand_tokens "Test Project")
                   (fresh_world numbered_ids at_noon))).
Proof.
  split; [reflexivity |].
  apply (webflow_generated_ids_distinct landing_page brand_tokens "Test Project"
           (fresh_world numbered_ids at_noon) (numbered_ids_fresh at_noon)).
Defined.

Lemma figma_reused_ids_witness :
  exists canvas first second,
    Figma.Document.children
      (Figma.File.document
         (run (figmaDocument landing_page brand_tokens "Test Project")
              (fresh_world numbered_ids at_noon))) = [canvas]
    /\ Figma.Canvas.children canvas !! 0 = Some first
    /\ Figma.Frame.id first = "0:0"
    /\ Figma.Canvas.children canvas !! 1 = Some second
    /\ Figma.Frame.id second = Figma.Canvas.id canvas.
Proof.
  destruct (figma_frames_reuse_document_and_canvas_ids landing_page brand_tokens
              "Test Project" (fresh_world numbered_ids at_noon))
    as (canvas & Hc & Hfirst & Hsecond).
  destruct (Hfirst hero eq_refl) as (first & H1 & E1).
  destruct (Hsecond features eq_refl) as (second & H2 & E2).
  exists canvas, first, second. repeat split; assumption.
Defined.

Lemma figma_style_witness :
  Figma.File.styles
    (run (figmaDocument landing_page brand_tokens "Test Project")
         (fresh_world numbered_ids at_noon)) !! 1
  = Some {| Figma.Style.key := "id-1";
            Figma.Style.name := "Color/secondary";
            Figma.Style.description := "Color token: secondary";
            Figma.Style.remote := false;
            Figma.Style.paints := [solid_paint "#10B981"] |}
  /\ NoDup (map Figma.Style.key
              (Figma.File.styles
                 (run (figmaDocument landing_page brand_tokens "Test Project")
                      (fresh_world numbered_ids at_noon)))).
Proof.
  destruct (figma_style_per_color_token landing_page brand_tokens "Test Project"
              (fresh_world numbered_ids at_noon)) as (_ & Hat & Hkeys).
  split.
  - apply (Hat 1 "secondary" "#10B981"). reflexivity.
  - apply Hkeys, numbered_ids_fresh.
Defined.

Lemma escapeHtml_injective_witness :
  "Fast & Simple" = "Fast & Simple"
  /\ lacks "'" (escapeHtml "it's <b>Fast & Simple</b>") = true.
Proof.
  split.
  - apply (escapeHtml_injective_quote_free "Fast & Simple" "Fast & Simple").
    reflexivity.
  - apply (escapeHtml_injective_quote_free "it's <b>Fast & Simple</b>" "").
Defined.

Lemma test_project_ascii : ascii_text "test-project".
Proof. repeat (constructor; [reflexivity |]). constructor. Defined.

Lemma webflow_short_name_witness :
  Webflow.Site.shortName
    (run (webflowSite landing_page brand_tokens "test-project")
         (fresh_world numbered_ids at_noon))
  = "test-project".
Proof.
  apply (webflow_short_name_is_a_slug landing_page brand_tokens "test-project"
           (fresh_world numbered_ids at_noon) test_project_ascii).
  repeat (constructor; [split; reflexivity |]). constructor.
Defined.

Lemma framer_descriptor_witness :
  exists descriptor,
    Framer.Config.components
      (run (framerConfig [hero_with_width_property] brand_tokens "Test Project")
           (fresh_world numbered_ids at_noon)) !! 0 = Some descriptor
    /\ dom (Framer.Component.props descriptor) = {[ "width" ]} ∪ explicit_keys.
Proof.
  destruct (framer_descriptors_are_flat_and_complete [hero_with_width_property]
              brand_tokens "Test Project" (fresh_world numbered_ids at_noon))
    as (_ & _ & Hdom).
  destruct (Hdom 0 hero_with_width_property eq_refl) as (descriptor & Hd & Hkeys).
  exists descriptor. split; [exact Hd |].
  rewrite Hkeys. cbn. by rewrite dom_singleton_L.
Defined.


Lemma landing_page_plain : Forall plain_component landing_page.
Proof. repeat constructor. Defined.

Lemma html_text_adds_no_markup_witness :
  occurrences tag_opener (htmlContent landing_page brand_tokens "<b>Test</b>") = 31.
Proof.
  apply (html_text_adds_no_markup landing_page brand_tokens "<b>Test</b>").
  - exact landing_page_plain.
  - exact brand_tokens_plain.
Defined.

Lemma webflow_node_ids_witness :
  exists page,
    Webflow.Site.pages
      (run (webflowSite landing_page brand_tokens "Test Project")
           (fresh_world numbered_ids at_noon)) = [page]
    /\ map Webflow.Node._id (Webflow.Page.children page) = ["comp-1"; "comp-2"]
    /\ NoDup (map Webflow.Node._id (Webflow.Page.children page)).
Proof.
  destruct (webflow_nodes_keep_component_ids landing_page brand_tokens
              "Test Project" (fresh_world numbered_ids at_noon))
    as (page & Hpages & Hids & Hdistinct).
  exists page. split; [exact Hpages |]. split; [exact Hids |].
  apply Hdistinct. cbn. repeat constructor; set_solver.
Defined.
